(** * AppointifyX: the multi-tenant appointment store and its authorization guard

    A shallow embedding of [backend/src/services/AppointmentService.ts],
    [backend/src/services/AuthService.ts] and the dispatcher of
    [backend/src/handlers/appointments.ts].

    - The DynamoDB table is a finite map from the primary key [(PK, SK)] to
      an item; the two global secondary indexes are views of that map
      (items grouped by [GSInPK], ordered by [GSInSK]). An item holds, for
      each attribute, the value the service last wrote to it. The start and
      end times are written as the [Date] objects Joi makes of the request's
      strings; DocumentClient marshals a [Date] as an empty map, and
      [DocumentClient.fetched] is what a read hands back for an item.
    - Every service method is a function from the table to an outcome and the
      next table; a JavaScript [throw] is the outcome [Thrown].
    - A JavaScript [Date] is modelled by its UTC calendar fields; the order of
      two instants is the lexicographic order of those fields, and moment
      formats in UTC, the time zone of the Lambda runtime.
    - Strings are the UTF-8 bytes of the text, compared byte by byte as
      DynamoDB compares sort keys; [utf16Length] is the length JavaScript
      and Joi see.
    - What Joi, jsonwebtoken and DynamoDB's filter comparison decide is a
      parameter, the class [Libraries]; what [uuidv4()] and the clock return
      is an argument of each call, the record [Runtime]. *)

From Stdlib Require Import ZArith Lia Ascii String List Bool Arith Sorted.
From stdpp Require Import gmap strings list fin_maps.

Local Open Scope nat_scope.

(** ** Outcomes of a service call *)

Inductive Error : Type :=
| ValidationError        (* new Error('Validation error: ...') *)
| AccessDenied           (* new Error('Access denied') *)
| ConditionalCheckFailed (* DynamoDB rejects a put whose condition fails *)
| ValidationException    (* DynamoDB rejects a request that names an
                            expression attribute no expression uses *).

Inductive Outcome (A : Type) : Type :=
| Returned (a : A)
| Thrown (e : Error).

Arguments Returned {A} a.
Arguments Thrown {A} e.

(** ** Timestamps *)

Record DateTime : Type := mkDateTime {
  year : nat;
  month : nat;
  day : nat;
  hour : nat;
  minute : nat;
  second : nat;
  millisecond : nat
}.

Definition isLeapYear (y : nat) : bool :=
  ((y mod 4 =? 0) && negb (y mod 100 =? 0)) || (y mod 400 =? 0).

Definition daysInMonth (y m : nat) : nat :=
  match m with
  | 2 => if isLeapYear y then 29 else 28
  | 4 | 6 | 9 | 11 => 30
  | _ => 31
  end.

(** The field ranges of a [Date] that is not "Invalid Date". *)
Definition validDateTime (t : DateTime) : bool :=
  (1 <=? month t) && (month t <=? 12) &&
  (1 <=? day t) && (day t <=? daysInMonth (year t) (month t)) &&
  (hour t <? 24) && (minute t <? 60) && (second t <? 60) &&
  (millisecond t <? 1000).

Definition fieldsOf (t : DateTime) : list nat :=
  [year t; month t; day t; hour t; minute t; second t; millisecond t].

Fixpoint lexCompare (a b : list nat) : comparison :=
  match a, b with
  | [], [] => Eq
  | [], _ :: _ => Lt
  | _ :: _, [] => Gt
  | x :: a', y :: b' =>
      match Nat.compare x y with
      | Eq => lexCompare a' b'
      | c => c
      end
  end.

(** [a.getTime() ? b.getTime()] *)
Definition compareTime (a b : DateTime) : comparison :=
  lexCompare (fieldsOf a) (fieldsOf b).

Definition earlier (a b : DateTime) : bool :=
  match compareTime a b with Lt => true | _ => false end.

Definition laterThan (a b : DateTime) : bool := earlier b a.

(** ** Strings as character lists *)

Abbreviation chars := String.list_ascii_of_string.

(** The string holds no ['#'], the delimiter of the key codec. *)
Definition delimiterFree (s : string) : bool :=
  negb (existsb (Ascii.eqb "#") (chars s)).

(** [s.length] in JavaScript: the UTF-16 code units of the text whose UTF-8
    bytes are [s]. The first byte of a character of one to three bytes counts
    one unit, the first byte of a character of four bytes counts two (a
    surrogate pair), a continuation byte counts none. *)
Definition codeUnits (c : ascii) : nat :=
  let b := nat_of_ascii c in
  if b <? 128 then 1 else if b <? 192 then 0 else if b <? 240 then 1 else 2.

Fixpoint utf16Length (s : string) : nat :=
  match s with
  | EmptyString => 0
  | String c s' => codeUnits c + utf16Length s'
  end.

(** ** Formatting numbers the way moment does *)

Definition digit (n : nat) : ascii := ascii_of_nat (48 + n mod 10).

Fixpoint decimalFrom (fuel n : nat) (acc : string) : string :=
  let acc' := String (digit n) acc in
  match fuel with
  | 0 => acc'
  | S fuel' => if n / 10 =? 0 then acc' else decimalFrom fuel' (n / 10) acc'
  end.

(** ['' + n] for a natural number [n] *)
Definition decimal (n : nat) : string := decimalFrom n n "".

Fixpoint zeros (k : nat) : string :=
  match k with
  | 0 => ""
  | S k' => String "0" (zeros k')
  end.

(** moment's [zeroFill(number, targetLength)] on a non-negative number *)
Definition zeroFill (n targetLength : nat) : string :=
  let absNumber := decimal n in
  zeros (targetLength - String.length absNumber) +:+ absNumber.

(** The two and four digits of a number that has no more. *)
Definition fixed2 (n : nat) : string :=
  String (digit (n / 10)) (String (digit n) "").

Definition fixed4 (n : nat) : string :=
  String (digit (n / 1000)) (String (digit (n / 100))
    (String (digit (n / 10)) (String (digit n) ""))).

(** [moment(t).format('YYYY-MM-DD')] *)
Definition formatDate (t : DateTime) : string :=
  zeroFill (year t) 4 +:+ "-" +:+ zeroFill (month t) 2 +:+ "-" +:+ zeroFill (day t) 2.

(** [moment(t).format('HH:mm:ss')] *)
Definition formatTime (t : DateTime) : string :=
  zeroFill (hour t) 2 +:+ ":" +:+ zeroFill (minute t) 2 +:+ ":" +:+ zeroFill (second t) 2.

(** Years that moment's [YYYY] prints with exactly four digits. *)
Definition fourDigitYear (t : DateTime) : bool := year t <? 10 * 1000.

(** The fields a sort key keeps: everything but the milliseconds. *)
Definition toTheSecond (t : DateTime) : list nat :=
  [year t; month t; day t; hour t; minute t; second t].

(** ** Key codec *)

Module KeyCodec.

(** [Key: { PK: `TENANT#${tenantId}#APPOINTMENT#${appointmentId}`,
             SK: `APPOINTMENT#${appointmentId}` }] *)
Definition primaryKey (tenantId appointmentId : string) : string * string :=
  ("TENANT#" +:+ tenantId +:+ "#APPOINTMENT#" +:+ appointmentId,
   "APPOINTMENT#" +:+ appointmentId).

(** [`DATE#${moment(startTime).format('YYYY-MM-DD')}#TIME#${moment(startTime).format('HH:mm:ss')}`] *)
Definition sortKey (startTime : DateTime) : string :=
  "DATE#" +:+ formatDate startTime +:+ "#TIME#" +:+ formatTime startTime.

(** [GSI1PK: `TENANT#${tenantId}`], [GSI1SK] *)
Definition tenantIndexKey (tenantId : string) (startTime : DateTime) : string * string :=
  ("TENANT#" +:+ tenantId, sortKey startTime).

(** [GSI2PK: `TENANT#${tenantId}#USER#${userId}`], [GSI2SK] *)
Definition ownerIndexKey (tenantId userId : string) (startTime : DateTime) : string * string :=
  ("TENANT#" +:+ tenantId +:+ "#USER#" +:+ userId, sortKey startTime).

End KeyCodec.

(** ** External libraries

    The behaviour of the libraries the services call is a parameter of the
    development. *)

(** The payload of a decoded JSON web token. *)
Record TokenPayload : Type := mkTokenPayload {
  sub : string;                           (* decodedToken.sub *)
  cognito_groups : option (list string);  (* decodedToken['cognito:groups'] *)
  custom_tenant_id : option string;       (* decodedToken['custom:tenant_id'] *)
  exp : option Z                          (* decoded.payload.exp *)
}.

Class Libraries : Type := {
  (** [Joi.string().email()] accepts the string *)
  isEmail : string -> bool;
  (** [jwt.decode(token, { complete: true })], [None] when it yields no object *)
  jwtDecode : string -> option TokenPayload;
  (** DynamoDB's [startTime >= :operand] on the [startTime] attribute of an
      item, whatever the form it is stored in *)
  attributeGe : DateTime -> string -> bool;
  (** DynamoDB's [startTime <= :operand], likewise *)
  attributeLe : DateTime -> string -> bool
}.

(** JavaScript truthiness of an optional string: [undefined] and [''] are falsy. *)
Definition truthy (o : option string) : bool :=
  match o with
  | Some s => negb (String.eqb s "")
  | None => false
  end.

(** [a || b] on optional strings *)
Definition orElse (a b : option string) : option string :=
  if truthy a then a else b.

(** [list.includes(x)] *)
Definition includes (l : list string) (x : string) : bool :=
  existsb (String.eqb x) l.

(** [s.replace(pattern, '')]: the first occurrence of [pattern] is removed. *)
Fixpoint removeFirst (pattern s : string) : string :=
  if String.prefix pattern s
  then String.substring (String.length pattern) (String.length s - String.length pattern) s
  else match s with
       | EmptyString => EmptyString
       | String c s' => String c (removeFirst pattern s')
       end.

(** ** AuthService *)

Module AuthService.

Record AuthResult : Type := mkAuthResult {
  isValid : bool;
  userId : option string;
  tenantId : option string;
  role : option string;
  error : option string
}.

Definition rejected (message : string) : AuthResult :=
  mkAuthResult false None None None (Some message).

(** The part of the API Gateway event that [validateRequest] reads. *)
Record Headers : Type := mkHeaders {
  Authorization : option string;
  authorization : option string
}.

Definition hasTenantAccess (userGroups : list string)
    (userTenantId : option string) (requestedTenantId : string) : bool :=
  if includes userGroups "super-admin" then true
  else if includes userGroups "tenant-admin" || includes userGroups "tenant-user"
  then match userTenantId with
       | Some t => String.eqb t requestedTenantId
       | None => false
       end
  else false.

Definition determineUserRole (userGroups : list string) : string :=
  if includes userGroups "super-admin" then "super-admin"
  else if includes userGroups "tenant-admin" then "tenant-admin"
  else if includes userGroups "tenant-user" then "tenant-user"
  else "tenant-user".

Section WithLibraries.
Context `{Libraries}.

(** [nowSeconds] is [Math.floor(Date.now() / 1000)]. *)
Definition verifyToken (nowSeconds : Z) (token : string) : option TokenPayload :=
  match jwtDecode token with
  | None => None
  | Some payload =>
      match exp payload with
      | Some e => if negb (e =? 0)%Z && (e <? nowSeconds)%Z then None else Some payload
      | None => Some payload
      end
  end.

Definition validateRequest (nowSeconds : Z) (headers : option Headers)
    (requestedTenantId : string) : AuthResult :=
  let authHeader :=
    match headers with
    | Some h => orElse (Authorization h) (authorization h)
    | None => None
    end in
  match authHeader with
  | None => rejected "Authorization header is required"
  | Some header =>
      if String.eqb header "" then rejected "Authorization header is required"
      else
        let token := removeFirst "Bearer " header in
        if String.eqb token "" then rejected "Bearer token is required"
        else
          match verifyToken nowSeconds token with
          | None => rejected "Invalid token"
          | Some decodedToken =>
              let userId := sub decodedToken in
              let userGroups := default [] (cognito_groups decodedToken) in
              let userTenantId := custom_tenant_id decodedToken in
              if negb (hasTenantAccess userGroups userTenantId requestedTenantId)
              then rejected "Access denied to tenant"
              else
                let role := determineUserRole userGroups in
                mkAuthResult true (Some userId) (Some requestedTenantId) (Some role) None
          end
  end.

End WithLibraries.

End AuthService.

(** ** AppointmentService *)

Module AppointmentService.

Inductive Status : Type := scheduled | confirmed | cancelled | completed.

Definition statusName (s : Status) : string :=
  match s with
  | scheduled => "scheduled"
  | confirmed => "confirmed"
  | cancelled => "cancelled"
  | completed => "completed"
  end.

(** [Joi.string().valid('scheduled', 'confirmed', 'cancelled', 'completed')] *)
Definition parseStatus (s : string) : option Status :=
  if String.eqb s "scheduled" then Some scheduled
  else if String.eqb s "confirmed" then Some confirmed
  else if String.eqb s "cancelled" then Some cancelled
  else if String.eqb s "completed" then Some completed
  else None.

(** [interface Appointment] *)
Record Appointment : Type := mkAppointment {
  appointmentId : string;
  tenantId : string;
  userId : string;
  title : string;
  description : option string;
  startTime : DateTime;
  endTime : DateTime;
  location : option string;
  attendees : list string;
  status : Status;
  reminderMinutes : Z;
  createdAt : DateTime;
  updatedAt : DateTime;
  ttl : Z
}.

(** An item of the table: the six key attributes and the appointment's own,
    each with the value the service last wrote to it. *)
Record Item : Type := mkItem {
  PK : string;
  SK : string;
  GSI1PK : string;
  GSI1SK : string;
  GSI2PK : string;
  GSI2SK : string;
  attributes : Appointment
}.

(** The appointments table, by primary key [(PK, SK)]. *)
Abbreviation Table := (gmap (string * string) Item).

(** What the runtime supplies to one call: [uuidv4()],
    [new Date().toISOString()] and [Date.now()] in milliseconds. *)
Record Runtime : Type := mkRuntime {
  uuid : string;
  now : DateTime;
  dateNow : Z
}.

(** The parsed request body ([appointmentData], [updateData]): the fields
    the schemas know, and the names of any other keys. *)
Record RequestData : Type := mkRequestData {
  in_title : option string;
  in_description : option string;
  in_startTime : option DateTime;
  in_endTime : option DateTime;
  in_location : option string;
  in_attendees : option (list string);
  in_status : option string;
  in_reminderMinutes : option Z;
  in_otherKeys : list string
}.

(** [value] of [appointmentSchema.validate] *)
Record NewValue : Type := mkNewValue {
  v_title : string;
  v_description : option string;
  v_startTime : DateTime;
  v_endTime : DateTime;
  v_location : option string;
  v_attendees : option (list string);
  v_status : Status;
  v_reminderMinutes : Z
}.

(** [value] of [updateAppointmentSchema.validate]: the supplied fields. *)
Record Patch : Type := mkPatch {
  p_title : option string;
  p_description : option string;
  p_startTime : option DateTime;
  p_endTime : option DateTime;
  p_location : option string;
  p_attendees : option (list string);
  p_status : option Status;
  p_reminderMinutes : option Z
}.

(** [interface AppointmentFilters] *)
Record AppointmentFilters : Type := mkFilters {
  startDate : option string;
  endDate : option string;
  statusFilter : option string;
  userIdFilter : option string
}.

(** [Joi.string().min(lo).max(hi)]: Joi compares [value.length], the number
    of UTF-16 code units; a Joi string is never empty. *)
Definition stringBetween (lo hi : nat) (s : string) : bool :=
  negb (String.eqb s "") && (lo <=? utf16Length s) && (utf16Length s <=? hi).

Definition optionally {A : Type} (check : A -> bool) (o : option A) : bool :=
  match o with
  | Some a => check a
  | None => true
  end.

(** [Joi.number().min(0).max(10080)] *)
Definition reminderInRange (n : Z) : bool := ((0 <=? n) && (n <=? 10080))%Z.

Definition present {A : Type} (o : option A) : nat :=
  match o with
  | Some _ => 1
  | None => 0
  end.

(** [Object.keys(updateData).length] *)
Definition keyCount (d : RequestData) : nat :=
  present (in_title d) + present (in_description d) + present (in_startTime d) +
  present (in_endTime d) + present (in_location d) + present (in_attendees d) +
  present (in_status d) + present (in_reminderMinutes d) + length (in_otherKeys d).

Definition statusAccepted (o : option string) : bool :=
  optionally (fun s => bool_decide (is_Some (parseStatus s))) o.

Section WithLibraries.
Context `{Libraries}.

(** The checks [appointmentSchema] and [updateAppointmentSchema] share. *)
Definition optionalFieldsAccepted (d : RequestData) : bool :=
  bool_decide (in_otherKeys d = []) &&
  optionally (stringBetween 0 1000) (in_description d) &&
  optionally (stringBetween 0 200) (in_location d) &&
  optionally (forallb isEmail) (in_attendees d) &&
  statusAccepted (in_status d) &&
  optionally reminderInRange (in_reminderMinutes d).

(** [appointmentSchema.validate(appointmentData)]; [None] is [error]. *)
Definition validateAppointment (d : RequestData) : option NewValue :=
  match in_title d, in_startTime d, in_endTime d with
  | Some t, Some st, Some et =>
      if stringBetween 1 200 t && validDateTime st && validDateTime et &&
         laterThan et st && optionalFieldsAccepted d
      then Some {|
        v_title := t;
        v_description := in_description d;
        v_startTime := st;
        v_endTime := et;
        v_location := in_location d;
        v_attendees := in_attendees d;
        v_status := default scheduled (in_status d ≫= parseStatus);
        v_reminderMinutes := default 60%Z (in_reminderMinutes d)
      |}
      else None
  | _, _, _ => None
  end.

(** [updateAppointmentSchema.validate(updateData)]; [None] is [error]. *)
Definition validateUpdate (d : RequestData) : option Patch :=
  if optionally (stringBetween 1 200) (in_title d) &&
     optionally validDateTime (in_startTime d) &&
     optionally validDateTime (in_endTime d) &&
     optionalFieldsAccepted d &&
     (1 <=? keyCount d)
  then Some {|
    p_title := in_title d;
    p_description := in_description d;
    p_startTime := in_startTime d;
    p_endTime := in_endTime d;
    p_location := in_location d;
    p_attendees := in_attendees d;
    p_status := in_status d ≫= parseStatus;
    p_reminderMinutes := in_reminderMinutes d
  |}
  else None.

(** The object [createAppointment] builds, puts and returns. *)
Definition newAppointment (rt : Runtime) (tenantId userId : string)
    (value : NewValue) : Appointment := {|
  appointmentId := uuid rt;
  tenantId := tenantId;
  userId := userId;
  title := v_title value;
  description := v_description value;
  startTime := v_startTime value;
  endTime := v_endTime value;
  location := v_location value;
  attendees := default [] (v_attendees value);
  status := v_status value;
  reminderMinutes := v_reminderMinutes value;
  createdAt := now rt;
  updatedAt := now rt;
  ttl := (dateNow rt / 1000 + 365 * 24 * 60 * 60)%Z
|}.

(** [params.Item] of the put: the six key attributes and the object; its
    two times are the [Date]s of the validated value. *)
Definition newItem (appointment : Appointment) : Item :=
  let key := KeyCodec.primaryKey (tenantId appointment) (appointmentId appointment) in
  let gsi1 := KeyCodec.tenantIndexKey (tenantId appointment) (startTime appointment) in
  let gsi2 := KeyCodec.ownerIndexKey (tenantId appointment) (userId appointment)
                (startTime appointment) in
  {| PK := key.1; SK := key.2;
     GSI1PK := gsi1.1; GSI1SK := gsi1.2;
     GSI2PK := gsi2.1; GSI2SK := gsi2.2;
     attributes := appointment |}.

Definition createAppointment (table : Table) (rt : Runtime)
    (tenantId userId userRole : string) (appointmentData : RequestData)
    : Outcome Appointment * Table :=
  match validateAppointment appointmentData with
  | None => (Thrown ValidationError, table)
  | Some value =>
      let appointment := newAppointment rt tenantId userId value in
      let item := newItem appointment in
      (* ConditionExpression: 'attribute_not_exists(PK)' *)
      match table !! (PK item, SK item) with
      | Some _ => (Thrown ConditionalCheckFailed, table)
      | None => (Returned appointment, <[(PK item, SK item) := item]> table)
      end
  end.

(** [userRole !== 'super-admin' && appointment.userId !== userId] *)
Definition denied (userRole userId : string) (appointment : Appointment) : bool :=
  negb (String.eqb userRole "super-admin") &&
  negb (String.eqb (AppointmentService.userId appointment) userId).

(** [null] is [Returned None]. The item is given by the values written to
    it; [DocumentClient.fetched] is the object the caller holds. *)
Definition getAppointment (table : Table)
    (tenantId appointmentId userId userRole : string) : Outcome (option Item) :=
  match table !! KeyCodec.primaryKey tenantId appointmentId with
  | None => Returned None
  | Some item =>
      if denied userRole userId (attributes item)
      then Thrown AccessDenied
      else Returned (Some item)
  end.

(** An index query returns the items of one partition in the order of
    their sort keys. *)
Fixpoint insertBySortKey (sortKey : Item -> string) (x : Item) (l : list Item)
    : list Item :=
  match l with
  | [] => [x]
  | y :: l' =>
      if String.leb (sortKey x) (sortKey y) then x :: y :: l'
      else y :: insertBySortKey sortKey x l'
  end.

Definition query (partitionKey sortKey : Item -> string) (value : string)
    (table : Table) : list Item :=
  foldr (insertBySortKey sortKey) []
    (List.filter (fun item => String.eqb (partitionKey item) value)
       (map_to_list table).*2).

(** The [FilterExpression]: the conjunction of the supplied filters. *)
Definition passesFilters (filters : AppointmentFilters) (item : Item) : bool :=
  (if truthy (startDate filters)
   then attributeGe (startTime (attributes item)) (default "" (startDate filters))
   else true) &&
  (if truthy (endDate filters)
   then attributeLe (startTime (attributes item)) (default "" (endDate filters))
   else true) &&
  (if truthy (statusFilter filters)
   then String.eqb (statusName (status (attributes item)))
          (default "" (statusFilter filters))
   else true).

(** [filterExpressions.length > 0] while none of the expressions uses
    [#status]: a date filter is supplied and the status filter is not. The
    query then carries [ExpressionAttributeNames: { '#status': 'status' }]
    unused, and DynamoDB rejects it. *)
Definition statusNameUnused (filters : AppointmentFilters) : bool :=
  (truthy (startDate filters) || truthy (endDate filters)) &&
  negb (truthy (statusFilter filters)).

Definition listAppointments (table : Table) (tenantId userId userRole : string)
    (filters : AppointmentFilters) : Outcome (list Item) :=
  let items :=
    if String.eqb userRole "super-admin"
    then query GSI1PK GSI1SK ("TENANT#" +:+ tenantId) table
    else query GSI2PK GSI2SK ("TENANT#" +:+ tenantId +:+ "#USER#" +:+ userId) table in
  if statusNameUnused filters
  then Thrown ValidationException
  else Returned (List.filter (passesFilters filters) items).

(** [SET updatedAt = :updatedAt, #attr0 = :val0, ...]: the supplied
    attributes are overwritten, every other attribute is kept. A supplied
    start or end time is written as the [Date] Joi made of it. *)
Definition applyPatch (value : Patch) (now : DateTime) (item : Item) : Item :=
  let a := attributes item in
  {| PK := PK item; SK := SK item;
     GSI1PK := GSI1PK item; GSI1SK := GSI1SK item;
     GSI2PK := GSI2PK item; GSI2SK := GSI2SK item;
     attributes := {|
       appointmentId := appointmentId a;
       tenantId := tenantId a;
       userId := userId a;
       title := default (title a) (p_title value);
       description :=
         match p_description value with Some d => Some d | None => description a end;
       startTime := default (startTime a) (p_startTime value);
       endTime := default (endTime a) (p_endTime value);
       location :=
         match p_location value with Some l => Some l | None => location a end;
       attendees := default (attendees a) (p_attendees value);
       status := default (status a) (p_status value);
       reminderMinutes := default (reminderMinutes a) (p_reminderMinutes value);
       createdAt := createdAt a;
       updatedAt := now;
       ttl := ttl a
     |} |}.

Definition updateAppointment (table : Table) (now : DateTime)
    (tenantId appointmentId userId userRole : string) (updateData : RequestData)
    : Outcome (option Item) * Table :=
  match validateUpdate updateData with
  | None => (Thrown ValidationError, table)
  | Some value =>
      match getAppointment table tenantId appointmentId userId userRole with
      | Thrown e => (Thrown e, table)
      | Returned None => (Returned None, table)
      | Returned (Some existingAppointment) =>
          if denied userRole userId (attributes existingAppointment)
          then (Thrown AccessDenied, table)
          else
            let updated := applyPatch value now existingAppointment in
            (* ReturnValues: 'ALL_NEW' *)
            (Returned (Some updated),
             <[KeyCodec.primaryKey tenantId appointmentId := updated]> table)
      end
  end.

Definition deleteAppointment (table : Table)
    (tenantId appointmentId userId userRole : string) : Outcome bool * Table :=
  match getAppointment table tenantId appointmentId userId userRole with
  | Thrown e => (Thrown e, table)
  | Returned None => (Returned false, table)
  | Returned (Some existingAppointment) =>
      if denied userRole userId (attributes existingAppointment)
      then (Thrown AccessDenied, table)
      else (Returned true, delete (KeyCodec.primaryKey tenantId appointmentId) table)
  end.

(** No stored appointment carries the identifier [id]. *)
Definition freshId (id : string) (table : Table) : Prop :=
  map_Forall (fun _ item => appointmentId (attributes item) ≠ id) table.

(** The tables the service can build: from the empty table, by any of its
    three writing methods, where [uuidv4()] never repeats an identifier
    that is in the table. *)
Inductive reachable : Table -> Prop :=
| reach_empty : reachable ∅
| reach_create table rt tenantId userId userRole appointmentData :
    reachable table ->
    freshId (uuid rt) table ->
    reachable (createAppointment table rt tenantId userId userRole appointmentData).2
| reach_update table now tenantId appointmentId userId userRole updateData :
    reachable table ->
    reachable (updateAppointment table now tenantId appointmentId
                 userId userRole updateData).2
| reach_delete table tenantId appointmentId userId userRole :
    reachable table ->
    reachable (deleteAppointment table tenantId appointmentId userId userRole).2.

End WithLibraries.

End AppointmentService.

(** ** What DocumentClient hands over

    [createAppointment] returns the object it built, whose [startTime] and
    [endTime] are the [Date] objects of the validated value. In the table they
    are empty maps, DocumentClient's marshalling of a [Date], so a read
    ([result.Item], [result.Items], [result.Attributes]) hands back an empty
    object for each of them. Every other attribute is a string, a number or
    a list of strings and comes back as it was written. *)

Module DocumentClient.

(** A start or end time as a JavaScript value. *)
Inductive TimeValue : Type :=
| DateObject (t : DateTime)  (* the [Date] Joi made of an ISO string *)
| EmptyObject                (* [{}] *).

(** The six key attributes [PK], [SK], [GSI1PK], [GSI1SK], [GSI2PK], [GSI2SK]. *)
Record KeyAttributes : Type := mkKeyAttributes {
  PK : string;
  SK : string;
  GSI1PK : string;
  GSI1SK : string;
  GSI2PK : string;
  GSI2SK : string
}.

(** An appointment as a JavaScript object. *)
Record Object : Type := mkObject {
  keyAttributes : option KeyAttributes;
  appointmentId : string;
  tenantId : string;
  userId : string;
  title : string;
  description : option string;
  startTime : TimeValue;
  endTime : TimeValue;
  location : option string;
  attendees : list string;
  status : AppointmentService.Status;
  reminderMinutes : Z;
  createdAt : DateTime;
  updatedAt : DateTime;
  ttl : Z
}.

Definition object (keys : option KeyAttributes) (times : DateTime -> TimeValue)
    (a : AppointmentService.Appointment) : Object := {|
  keyAttributes := keys;
  appointmentId := AppointmentService.appointmentId a;
  tenantId := AppointmentService.tenantId a;
  userId := AppointmentService.userId a;
  title := AppointmentService.title a;
  description := AppointmentService.description a;
  startTime := times (AppointmentService.startTime a);
  endTime := times (AppointmentService.endTime a);
  location := AppointmentService.location a;
  attendees := AppointmentService.attendees a;
  status := AppointmentService.status a;
  reminderMinutes := AppointmentService.reminderMinutes a;
  createdAt := AppointmentService.createdAt a;
  updatedAt := AppointmentService.updatedAt a;
  ttl := AppointmentService.ttl a
|}.

(** [return appointment] of [createAppointment]: the object as built. *)
Definition returned (appointment : AppointmentService.Appointment) : Object :=
  object None DateObject appointment.

(** [result.Item] of [getAppointment], and likewise [result.Attributes] and
    the elements of [result.Items], for an item the service wrote. *)
Definition fetched (item : AppointmentService.Item) : Object :=
  object
    (Some {| PK := AppointmentService.PK item; SK := AppointmentService.SK item;
             GSI1PK := AppointmentService.GSI1PK item;
             GSI1SK := AppointmentService.GSI1SK item;
             GSI2PK := AppointmentService.GSI2PK item;
             GSI2SK := AppointmentService.GSI2SK item |})
    (fun _ => EmptyObject)
    (AppointmentService.attributes item).

End DocumentClient.

(** ** The Lambda handler *)

Module Handler.
Import AppointmentService.

Inductive RequestBody : Type :=
| InvalidJson                  (* JSON.parse throws a SyntaxError *)
| Json (data : RequestData).

(** The part of the [APIGatewayProxyEvent] the handler reads. An empty
    [body] is [None], as is [null]. *)
Record Event : Type := mkEvent {
  httpMethod : string;
  pathTenantId : option string;
  pathAppointmentId : option string;
  headers : option AuthService.Headers;
  queryStringParameters : option AppointmentFilters;
  body : option RequestBody
}.

Inductive Data : Type :=
| StoredItem (item : Item)
| Created (appointment : Appointment)
| Listing (appointments : list Item) (count : nat)
| Message (message : string).

Inductive ResponseBody : Type :=
| Success (data : Data)
| Failure (message : string) (details : option string).

Record Response : Type := mkResponse {
  statusCode : nat;
  responseBody : ResponseBody
}.

(** [ResponseHelper.success], [ResponseHelper.error] *)
Definition success (statusCode : nat) (data : Data) : Response :=
  mkResponse statusCode (Success data).

Definition error (statusCode : nat) (message : string) (details : option string)
    : Response :=
  mkResponse statusCode (Failure message details).

Definition noFilters : AppointmentFilters := mkFilters None None None None.

Section WithLibraries.
Context `{Libraries}.

Definition getAppointment (table : Table)
    (tenantId appointmentId userId userRole : string) : Response :=
  match AppointmentService.getAppointment table tenantId appointmentId userId userRole with
  | Returned None => error 404 "Appointment not found" None
  | Returned (Some appointment) => success 200 (StoredItem appointment)
  | Thrown _ => error 500 "Failed to retrieve appointment" None
  end.

Definition listAppointments (table : Table) (tenantId userId userRole : string)
    (queryParams : option AppointmentFilters) : Response :=
  let filters := default noFilters queryParams in
  match AppointmentService.listAppointments table tenantId userId userRole filters with
  | Returned appointments => success 200 (Listing appointments (length appointments))
  | Thrown _ => error 500 "Failed to retrieve appointments" None
  end.

Definition createAppointment (table : Table) (rt : Runtime)
    (tenantId userId userRole : string) (body : option RequestBody)
    : Response * Table :=
  match body with
  | None => (error 400 "Request body is required" None, table)
  | Some InvalidJson => (error 400 "Invalid JSON in request body" None, table)
  | Some (Json appointmentData) =>
      match AppointmentService.createAppointment table rt tenantId userId userRole
              appointmentData with
      | (Returned appointment, table') => (success 201 (Created appointment), table')
      | (Thrown _, table') => (error 500 "Failed to create appointment" None, table')
      end
  end.

Definition updateAppointment (table : Table) (rt : Runtime)
    (tenantId appointmentId userId userRole : string) (body : option RequestBody)
    : Response * Table :=
  match body with
  | None => (error 400 "Request body is required" None, table)
  | Some InvalidJson => (error 400 "Invalid JSON in request body" None, table)
  | Some (Json updateData) =>
      match AppointmentService.updateAppointment table (now rt) tenantId appointmentId
              userId userRole updateData with
      | (Returned None, table') => (error 404 "Appointment not found" None, table')
      | (Returned (Some appointment), table') =>
          (success 200 (StoredItem appointment), table')
      | (Thrown _, table') => (error 500 "Failed to update appointment" None, table')
      end
  end.

Definition deleteAppointment (table : Table)
    (tenantId appointmentId userId userRole : string) : Response * Table :=
  match AppointmentService.deleteAppointment table tenantId appointmentId
          userId userRole with
  | (Returned false, table') => (error 404 "Appointment not found" None, table')
  | (Returned true, table') =>
      (success 200 (Message "Appointment deleted successfully"), table')
  | (Thrown _, table') => (error 500 "Failed to delete appointment" None, table')
  end.

Definition handler (table : Table) (rt : Runtime) (event : Event)
    : Response * Table :=
  if negb (truthy (pathTenantId event))
  then (error 400 "Tenant ID is required" None, table)
  else
    let tenantId := default "" (pathTenantId event) in
    let authResult :=
      AuthService.validateRequest (dateNow rt / 1000)%Z (headers event) tenantId in
    if negb (AuthService.isValid authResult)
    then (error 401 "Unauthorized" (AuthService.error authResult), table)
    else
      let userId := default "" (AuthService.userId authResult) in
      let userRole := default "" (AuthService.role authResult) in
      if String.eqb (httpMethod event) "GET" then
        if truthy (pathAppointmentId event)
        then (getAppointment table tenantId (default "" (pathAppointmentId event))
                userId userRole, table)
        else (listAppointments table tenantId userId userRole
                (queryStringParameters event), table)
      else if String.eqb (httpMethod event) "POST" then
        createAppointment table rt tenantId userId userRole (body event)
      else if String.eqb (httpMethod event) "PUT" then
        if negb (truthy (pathAppointmentId event))
        then (error 400 "Appointment ID is required for updates" None, table)
        else updateAppointment table rt tenantId (default "" (pathAppointmentId event))
               userId userRole (body event)
      else if String.eqb (httpMethod event) "DELETE" then
        if negb (truthy (pathAppointmentId event))
        then (error 400 "Appointment ID is required for deletion" None, table)
        else deleteAppointment table tenantId (default "" (pathAppointmentId event))
               userId userRole
      else (error 405 "Method not allowed" None, table).

End WithLibraries.

End Handler.

(** ** Invariants of the table *)

Section TableInvariantDefinitions.
Import AppointmentService.

(** The key attributes of an item are those its immutable attributes
    derive, and the item sits under its own primary key. *)
Definition wellKeyed (key : string * string) (item : Item) : Prop :=
  let a := attributes item in
  key = KeyCodec.primaryKey (tenantId a) (appointmentId a) /\
  PK item = key.1 /\ SK item = key.2 /\
  GSI1PK item = "TENANT#" +:+ tenantId a /\
  GSI2PK item = "TENANT#" +:+ tenantId a +:+ "#USER#" +:+ userId a.

(** No two items of the table share an appointment identifier. *)
Definition uniqueIds (table : Table) : Prop :=
  forall k1 k2 i1 i2,
    table !! k1 = Some i1 -> table !! k2 = Some i2 ->
    appointmentId (attributes i1) = appointmentId (attributes i2) -> k1 = k2.

End TableInvariantDefinitions.

(** ** Sample values *)

(** Libraries that accept every e-mail address, decode a token to a fixed
    payload by its name, and let every start time through a date filter. *)
Definition sampleLibraries : Libraries := {|
  isEmail := fun _ => true;
  jwtDecode := fun token =>
    if String.eqb token "guest"
    then Some (mkTokenPayload "u-guest" (Some ["guests"]) (Some "t1") None)
    else if String.eqb token "alice"
    then Some (mkTokenPayload "u-alice" (Some ["tenant-user"]) (Some "t1") None)
    else None;
  attributeGe := fun _ _ => true;
  attributeLe := fun _ _ => true
|}.

Definition sampleStart : DateTime := mkDateTime 2024 6 1 10 0 0 0.
Definition sampleEnd : DateTime := mkDateTime 2024 6 1 10 30 0 0.

(** [{ title: "Sync", startTime: "2024-06-01T10:00:00Z", endTime: "2024-06-01T10:30:00Z" }] *)
Definition sampleData : AppointmentService.RequestData :=
  AppointmentService.mkRequestData (Some "Sync") None (Some sampleStart) (Some sampleEnd)
    None None None None [].

Definition sampleRuntime : AppointmentService.Runtime :=
  AppointmentService.mkRuntime "id-1" (mkDateTime 2024 5 30 9 0 0 0) 1717059600000.

(** The table after one appointment [sampleData] is created in the empty
    table for [user] of [tenant]. *)
Definition tableAfterCreate (tenant user : string) : AppointmentService.Table :=
  (AppointmentService.createAppointment (H := sampleLibraries) ∅ sampleRuntime
     tenant user "tenant-user" sampleData).2.

(** [{}] *)
Definition emptyData : AppointmentService.RequestData :=
  AppointmentService.mkRequestData None None None None None None None None [].

(** [{ title: "Renamed" }] *)
Definition renameData : AppointmentService.RequestData :=
  AppointmentService.mkRequestData (Some "Renamed") None None None None None None None [].

(** [{ endTime: "2024-06-01T09:00:00Z" }], an hour before [sampleStart] *)
Definition endEarlyData : AppointmentService.RequestData :=
  AppointmentService.mkRequestData None None None (Some (mkDateTime 2024 6 1 9 0 0 0))
    None None None None [].

(** [{ startTime: "2024-06-01T12:00:00Z", endTime: "2024-06-01T13:00:00Z" }] *)
Definition moveData : AppointmentService.RequestData :=
  AppointmentService.mkRequestData None None (Some (mkDateTime 2024 6 1 12 0 0 0))
    (Some (mkDateTime 2024 6 1 13 0 0 0)) None None None None [].

Definition sampleLater : DateTime := mkDateTime 2024 5 31 9 0 0 0.

(** A second appointment of the same owner, from 11:00 to 11:30, and the
    table that holds both. *)
Definition secondData : AppointmentService.RequestData :=
  AppointmentService.mkRequestData (Some "Review") None
    (Some (mkDateTime 2024 6 1 11 0 0 0)) (Some (mkDateTime 2024 6 1 11 30 0 0))
    None None None None [].

Definition secondRuntime : AppointmentService.Runtime :=
  AppointmentService.mkRuntime "id-2" (mkDateTime 2024 5 30 9 5 0 0) 1717059900000.

Definition tableWithTwo : AppointmentService.Table :=
  (AppointmentService.createAppointment (H := sampleLibraries)
     (tableAfterCreate "t1" "u1") secondRuntime "t1" "u1" "tenant-user" secondData).2.

(** The identifier and start time of each listed item, in the order listed. *)
Definition schedule (outcome : Outcome (list AppointmentService.Item))
    : list (string * DateTime) :=
  match outcome with
  | Returned items =>
      map (fun item =>
             (AppointmentService.appointmentId (AppointmentService.attributes item),
              AppointmentService.startTime (AppointmentService.attributes item))) items
  | Thrown _ => []
  end.

(** ** AuthService: the user directory methods *)

Module UserDirectory.

(** [getGroupNameForRole]: every role but the two administrator roles falls
    to the [default] branch. *)
Definition getGroupNameForRole (role : string) : string :=
  if String.eqb role "super-admin" then "super-admin"
  else if String.eqb role "tenant-admin" then "tenant-admin"
  else "tenant-user".

(** Cognito's [AttributeType]: [{ Name, Value? }] *)
Record AttributeType : Type := mkAttribute {
  Name : string;
  Value : option string
}.

(** The argument of [createUser] *)
Record UserData : Type := mkUserData {
  new_email : string;
  new_password : string;
  new_tenantId : string;
  new_role : string
}.

(** [params.UserAttributes] of [createUser] *)
Definition createUserAttributes (userData : UserData) : list AttributeType :=
  [ mkAttribute "email" (Some (new_email userData));
    mkAttribute "email_verified" (Some "true");
    mkAttribute "custom:tenant_id" (Some (new_tenantId userData));
    mkAttribute "custom:role" (Some (new_role userData)) ].

(** The arguments of [addUserToGroup] as [createUser] calls it, and the group
    it asks Cognito for: [(Username, GroupName)]. *)
Definition addUserToGroup (username role : string) : string * string :=
  (username, getGroupNameForRole role).

(** What [adminGetUser] answers, as far as [getUserInfo] reads it. *)
Record AdminGetUserResponse : Type := mkAdminGetUserResponse {
  Username : string;
  Enabled : option bool;
  UserStatus : option string;
  UserCreateDate : option DateTime;
  UserLastModifiedDate : option DateTime;
  UserAttributes : option (list AttributeType)
}.

(** [userInfo]; a property never assigned is [None]. *)
Record UserInfo : Type := mkUserInfo {
  userId : string;
  enabled : option bool;
  status : option string;
  createdAt : option DateTime;
  lastModified : option DateTime;
  email : option string;
  tenantId : option string;
  role : option string
}.

(** The body of [result.UserAttributes?.forEach(attr => { switch (attr.Name) ... })] *)
Definition parseAttribute (userInfo : UserInfo) (attr : AttributeType) : UserInfo :=
  if String.eqb (Name attr) "email" then
    mkUserInfo (userId userInfo) (enabled userInfo) (status userInfo) (createdAt userInfo)
      (lastModified userInfo) (Value attr) (tenantId userInfo) (role userInfo)
  else if String.eqb (Name attr) "custom:tenant_id" then
    mkUserInfo (userId userInfo) (enabled userInfo) (status userInfo) (createdAt userInfo)
      (lastModified userInfo) (email userInfo) (Value attr) (role userInfo)
  else if String.eqb (Name attr) "custom:role" then
    mkUserInfo (userId userInfo) (enabled userInfo) (status userInfo) (createdAt userInfo)
      (lastModified userInfo) (email userInfo) (tenantId userInfo) (Value attr)
  else userInfo.

(** [getUserInfo], from the answer of [adminGetUser] on *)
Definition getUserInfo (result : AdminGetUserResponse) : UserInfo :=
  fold_left parseAttribute (default [] (UserAttributes result))
    (mkUserInfo (Username result) (Enabled result) (UserStatus result)
       (UserCreateDate result) (UserLastModifiedDate result) None None None).

(** The attribute is one of the three [getUserInfo] reads. *)
Definition readByGetUserInfo (attr : AttributeType) : bool :=
  String.eqb (Name attr) "email" || String.eqb (Name attr) "custom:tenant_id" ||
  String.eqb (Name attr) "custom:role".

End UserDirectory.

(** [pattern] occurs somewhere in [s]. *)
Fixpoint occursIn (pattern s : string) : bool :=
  String.prefix pattern s ||
  match s with
  | EmptyString => false
  | String _ s' => occursIn pattern s'
  end.

(** ** The seed script *)

Module SeedData.
Import AppointmentService.

(** An entry of [SAMPLE_APPOINTMENTS]: an appointment without [ttl]. *)
Record SeedAppointment : Type := mkSeedAppointment {
  seed_appointmentId : string;
  seed_tenantId : string;
  seed_userId : string;
  seed_title : string;
  seed_description : option string;
  seed_startTime : DateTime;
  seed_endTime : DateTime;
  seed_location : option string;
  seed_attendees : list string;
  seed_status : Status;
  seed_reminderMinutes : Z;
  seed_createdAt : DateTime;
  seed_updatedAt : DateTime
}.

(** [startDate.toISOString().split('T')[0]]: four digits for the years up
    to 9999, a sign and six digits beyond. *)
Definition isoDate (t : DateTime) : string :=
  (if year t <? 10 * 1000 then zeroFill (year t) 4 else "+" +:+ zeroFill (year t) 6)
  +:+ "-" +:+ zeroFill (month t) 2 +:+ "-" +:+ zeroFill (day t) 2.

(** The time zone of the process that runs the script: the local calendar
    fields of an instant, from its UTC fields. *)
Definition TimeZone : Type := DateTime -> DateTime.

(** [startDate.toTimeString().split(' ')[0]]: the time of day in the zone of
    the process. *)
Definition clockTime (zone : TimeZone) (t : DateTime) : string :=
  let local := zone t in
  zeroFill (hour local) 2 +:+ ":" +:+ zeroFill (minute local) 2 +:+ ":" +:+
  zeroFill (second local) 2.

(** [createAppointmentItem(appointment)]; [dateNow] is [Date.now()]. The
    start and end times of a seed appointment are ISO strings and are
    stored as such. *)
Definition createAppointmentItem (zone : TimeZone) (dateNow : Z)
    (appointment : SeedAppointment) : Item :=
  let dateStr := isoDate (seed_startTime appointment) in
  let timeStr := clockTime zone (seed_startTime appointment) in
  {| PK := "TENANT#" +:+ seed_tenantId appointment +:+ "#APPOINTMENT#"
             +:+ seed_appointmentId appointment;
     SK := "APPOINTMENT#" +:+ seed_appointmentId appointment;
     GSI1PK := "TENANT#" +:+ seed_tenantId appointment;
     GSI1SK := "DATE#" +:+ dateStr +:+ "#TIME#" +:+ timeStr;
     GSI2PK := "TENANT#" +:+ seed_tenantId appointment +:+ "#USER#"
                 +:+ seed_userId appointment;
     GSI2SK := "DATE#" +:+ dateStr +:+ "#TIME#" +:+ timeStr;
     attributes := {|
       appointmentId := seed_appointmentId appointment;
       tenantId := seed_tenantId appointment;
       userId := seed_userId appointment;
       title := seed_title appointment;
       description := seed_description appointment;
       startTime := seed_startTime appointment;
       endTime := seed_endTime appointment;
       location := seed_location appointment;
       attendees := seed_attendees appointment;
       status := seed_status appointment;
       reminderMinutes := seed_reminderMinutes appointment;
       createdAt := seed_createdAt appointment;
       updatedAt := seed_updatedAt appointment;
       ttl := (dateNow / 1000 + 365 * 24 * 60 * 60)%Z
     |} |}.

(** [createDynamoDBItem(CONFIG.appointmentsTable, appointmentItem)]: an
    unconditional put. *)
Definition seedAppointment (zone : TimeZone) (table : Table) (dateNow : Z)
    (appointment : SeedAppointment) : Table :=
  let item := createAppointmentItem zone dateNow appointment in
  <[(PK item, SK item) := item]> table.

End SeedData.

(** ** Operations and field constraints *)

Section OperationDefinitions.
Import AppointmentService.
Context `{Libraries}.

(** One call of a writing method of the service. *)
Inductive Operation : Type :=
| Create (rt : Runtime) (tenantId userId userRole : string) (data : RequestData)
| Update (now : DateTime) (tenantId appointmentId userId userRole : string)
    (data : RequestData)
| Delete (tenantId appointmentId userId userRole : string).

(** The table the call leaves. *)
Definition perform (table : Table) (op : Operation) : Table :=
  match op with
  | Create rt tenantId userId userRole data =>
      (createAppointment table rt tenantId userId userRole data).2
  | Update now tenantId appointmentId userId userRole data =>
      (updateAppointment table now tenantId appointmentId userId userRole data).2
  | Delete tenantId appointmentId userId userRole =>
      (deleteAppointment table tenantId appointmentId userId userRole).2
  end.

(** The primary key the call addresses. *)
Definition targetKey (op : Operation) : string * string :=
  match op with
  | Create rt tenantId _ _ _ => KeyCodec.primaryKey tenantId (uuid rt)
  | Update _ tenantId appointmentId _ _ _ => KeyCodec.primaryKey tenantId appointmentId
  | Delete tenantId appointmentId _ _ => KeyCodec.primaryKey tenantId appointmentId
  end.

(** The tables any sequence of calls builds from the empty table, whatever
    identifiers [uuidv4()] returns. *)
Inductive built : Table -> Prop :=
| built_empty : built ∅
| built_perform table op : built table -> built (perform table op).

(** The two sort keys of the item encode its start time, a valid instant of
    a year of four digits. *)
Definition encodesStart (item : Item) : Prop :=
  let start := startTime (attributes item) in
  GSI1SK item = KeyCodec.sortKey start /\ GSI2SK item = KeyCodec.sortKey start /\
  validDateTime start = true /\ fourDigitYear start = true.

(** A call after which every sort key still encodes its record's start
    time: a create whose start time has a year of four digits, an update
    that supplies no start time, a delete. *)
Definition keepsSortKeys (op : Operation) : Prop :=
  match op with
  | Create _ _ _ _ data =>
      forall start, in_startTime data = Some start -> fourDigitYear start = true
  | Update _ _ _ _ _ data => in_startTime data = None
  | Delete _ _ _ _ => True
  end.

(** The second listed record does not start a second or more before the
    first. *)
Definition chronological (x y : Item) : Prop :=
  lexCompare (toTheSecond (startTime (attributes x)))
             (toTheSecond (startTime (attributes y))) <> Gt.

(** The constraints the two schemas put on single fields. *)
Definition fieldsAccepted (a : Appointment) : bool :=
  stringBetween 1 200 (title a) &&
  optionally (stringBetween 0 1000) (description a) &&
  optionally (stringBetween 0 200) (location a) &&
  forallb isEmail (attendees a) &&
  reminderInRange (reminderMinutes a) &&
  validDateTime (startTime a) && validDateTime (endTime a).

End OperationDefinitions.

(** Sample values for the further properties. *)
(** The item [tableAfterCreate "t1" "u1"] holds. *)
Definition sampleItem : AppointmentService.Item :=
  AppointmentService.newItem
    (AppointmentService.mkAppointment "id-1" "t1" "u1" "Sync" None sampleStart sampleEnd
       None [] AppointmentService.scheduled 60 (AppointmentService.now sampleRuntime)
       (AppointmentService.now sampleRuntime) 1748595600).

Definition sampleUserData : UserDirectory.UserData :=
  UserDirectory.mkUserData "jane@acme.com" "Temp#1234" "tenant-001" "tenant-admin".

(** The last second of the year 9999 and the first of the year 10000. *)
Definition endOf9999 : DateTime := mkDateTime (9 * 1000 + 999) 12 31 23 59 59 0.
Definition startOf10000 : DateTime := mkDateTime (10 * 1000) 1 1 0 0 0 0.

(** [{ title: "Sync", startTime: "+010000-01-01T00:00:00Z", endTime: "+010000-01-01T01:00:00Z" }] *)
Definition farData : AppointmentService.RequestData :=
  AppointmentService.mkRequestData (Some "Sync") None (Some startOf10000)
    (Some (mkDateTime (10 * 1000) 1 1 1 0 0 0)) None None None None [].

(** [{ title: "Eve", startTime: "9999-12-31T23:59:59Z", endTime: "+010000-01-01T00:00:00Z" }] *)
Definition eveData : AppointmentService.RequestData :=
  AppointmentService.mkRequestData (Some "Eve") None (Some endOf9999)
    (Some startOf10000) None None None None [].

(** The table after [eveData] and then [farData] are created for one user. *)
Definition tableAcrossYears : AppointmentService.Table :=
  (AppointmentService.createAppointment (H := sampleLibraries)
     (AppointmentService.createAppointment (H := sampleLibraries) ∅ sampleRuntime
        "t1" "u1" "tenant-user" eveData).2
     secondRuntime "t1" "u1" "tenant-user" farData).2.

(** [n] times the letter e with an acute accent, two bytes each in UTF-8. *)
Fixpoint accents (n : nat) : string :=
  match n with
  | 0 => ""
  | S n' => String (ascii_of_nat 195) (String (ascii_of_nat 169) (accents n'))
  end.


(** A zone an hour ahead of UTC on the morning of [sampleStart]. *)
Definition hourAhead : SeedData.TimeZone :=
  fun t => mkDateTime (year t) (month t) (day t) (hour t + 1) (minute t) (second t)
             (millisecond t).

Definition sampleSeed : SeedData.SeedAppointment :=
  SeedData.mkSeedAppointment "seed-1" "tenant-001" "user-001" "Client Meeting"
    (Some "Quarterly business review with key client") sampleStart sampleEnd
    (Some "Conference Room A") ["client@example.com"] AppointmentService.scheduled 60
    (mkDateTime 2024 5 30 9 0 0 0) (mkDateTime 2024 5 30 9 0 0 0).

(** * Properties *)

(** ** Strings as character lists *)

Lemma append_cons (c : ascii) (s t : string) :
  String c s +:+ t = String c (s +:+ t).
Proof. reflexivity. Qed.

Lemma chars_app (s t : string) : chars (s +:+ t) = chars s ++ chars t.
Proof.
  induction s as [|c s IH]; [reflexivity|].
  rewrite append_cons. simpl. now rewrite IH.
Qed.

Lemma chars_inj (s t : string) : chars s = chars t -> s = t.
Proof.
  intros E.
  rewrite <- (String.string_of_list_ascii_of_string s),
          <- (String.string_of_list_ascii_of_string t).
  now rewrite E.
Qed.

Lemma append_inv_tail (s1 s2 t : string) : s1 +:+ t = s2 +:+ t -> s1 = s2.
Proof.
  intros E. apply chars_inj.
  apply (f_equal chars) in E. rewrite !chars_app in E.
  now apply app_inv_tail in E.
Qed.

Lemma append_inv_head (s t1 t2 : string) : s +:+ t1 = s +:+ t2 -> t1 = t2.
Proof.
  intros E. apply chars_inj.
  apply (f_equal chars) in E. rewrite !chars_app in E.
  now apply app_inv_head in E.
Qed.

(** ** The primary key *)

Lemma primaryKey_inv (t1 a1 t2 a2 : string) :
  KeyCodec.primaryKey t1 a1 = KeyCodec.primaryKey t2 a2 -> t1 = t2 /\ a1 = a2.
Proof.
  unfold KeyCodec.primaryKey. intros E.
  injection E as Epk Esk.
  apply append_inv_head in Esk. subst a2.
  apply append_inv_head in Epk.
  apply append_inv_tail in Epk.
  now split.
Qed.

(** C4. The primary key is injective: two distinct pairs of a tenant
    identifier and an appointment identifier never derive the same pair
    [(PK, SK)]. It holds for all strings, whatever characters they contain. *)
Theorem primaryKey_injective (t1 a1 t2 a2 : string) :
  (t1, a1) <> (t2, a2) -> KeyCodec.primaryKey t1 a1 <> KeyCodec.primaryKey t2 a2.
Proof.
  intros Hne E. apply Hne.
  apply primaryKey_inv in E as [-> ->]. reflexivity.
Qed.

Lemma primaryKey_injective_witness :
  KeyCodec.primaryKey "tenant-1" "app-1" <> KeyCodec.primaryKey "tenant-2" "app-1".
Proof.
  apply primaryKey_injective. intros E. discriminate E.
Defined.

(** ** The tenant-access check *)

Lemma substring_all (s : string) : String.substring 0 (String.length s) s = s.
Proof. induction s as [|c s IH]; simpl; [reflexivity | now rewrite IH]. Qed.

Lemma removeFirst_bearer (token : string) :
  removeFirst "Bearer " ("Bearer " +:+ token) = token.
Proof.
  change ("Bearer " +:+ token)
    with (String "B" (String "e" (String "a" (String "r" (String "e"
            (String "r" (String " " token))))))).
  cbn.
  replace (String.prefix "" token) with true by (destruct token; reflexivity).
  rewrite Nat.sub_0_r. apply substring_all.
Qed.

Lemma eqb_empty_false (s : string) : s <> "" -> String.eqb s "" = false.
Proof. intros Hs. now apply String.eqb_neq. Qed.

Lemma bearer_nonempty (token : string) : String.eqb ("Bearer " +:+ token) "" = false.
Proof. reflexivity. Qed.

(** A tenant administrator or user is let into its own tenant only. *)
Lemma hasTenantAccess_own_tenant_only (userGroups : list string)
    (userTenantId : option string) (requestedTenantId : string) :
  includes userGroups "super-admin" = false ->
  AuthService.hasTenantAccess userGroups userTenantId requestedTenantId = true ->
  userTenantId = Some requestedTenantId.
Proof.
  unfold AuthService.hasTenantAccess. intros ->.
  destruct (_ || _); [|discriminate].
  destruct userTenantId as [t|]; [|discriminate].
  now intros ->%String.eqb_eq.
Qed.

(** C10. Default deny: an identity whose groups contain none of
    [super-admin], [tenant-admin], [tenant-user] passes the tenant-access
    check for no tenant, its own included, and a request bearing its token is
    answered 401 with the table untouched. *)
Theorem unrecognized_groups_denied `{Libraries} (payload : TokenPayload) :
  let userGroups := default [] (cognito_groups payload) in
  includes userGroups "super-admin" = false ->
  includes userGroups "tenant-admin" = false ->
  includes userGroups "tenant-user" = false ->
  (forall userTenantId requestedTenantId,
     AuthService.hasTenantAccess userGroups userTenantId requestedTenantId = false) /\
  (forall table rt event tenant token lowerCaseHeader,
     Handler.pathTenantId event = Some tenant -> tenant <> "" ->
     Handler.headers event =
       Some (AuthService.mkHeaders (Some ("Bearer " +:+ token)) lowerCaseHeader) ->
     token <> "" ->
     AuthService.verifyToken (AppointmentService.dateNow rt / 1000)%Z token = Some payload ->
     Handler.handler table rt event =
       (Handler.error 401 "Unauthorized" (Some "Access denied to tenant"), table)).
Proof.
  intros userGroups Hsuper Hadmin Huser.
  assert (Hdeny : forall userTenantId requestedTenantId,
             AuthService.hasTenantAccess userGroups userTenantId requestedTenantId = false).
  { intros. unfold AuthService.hasTenantAccess.
    now rewrite Hsuper, Hadmin, Huser. }
  split; [exact Hdeny|].
  intros table rt event tenant token lower Htenant Hne Hheaders Htoken Hverify.
  unfold Handler.handler, AuthService.validateRequest.
  rewrite Htenant, Hheaders. cbn [truthy default negb].
  rewrite (eqb_empty_false tenant Hne). cbn [negb].
  cbn [AuthService.Authorization AuthService.authorization].
  unfold orElse, truthy. rewrite bearer_nonempty. cbn [negb].
  rewrite bearer_nonempty, removeFirst_bearer, (eqb_empty_false token Htoken).
  rewrite Hverify. fold userGroups. rewrite Hdeny. reflexivity.
Qed.

Lemma unrecognized_groups_denied_witness :
  AuthService.hasTenantAccess ["guests"] (Some "t1") "t1" = false /\
  Handler.handler (H := sampleLibraries) ∅
    (AppointmentService.mkRuntime "id-1" (mkDateTime 2024 6 1 9 0 0 0) 1717232400000)
    (Handler.mkEvent "GET" (Some "t1") None
       (Some (AuthService.mkHeaders (Some "Bearer guest") None)) None None)
  = (Handler.error 401 "Unauthorized" (Some "Access denied to tenant"), ∅).
Proof.
  pose proof (unrecognized_groups_denied (H := sampleLibraries)
                (mkTokenPayload "u-guest" (Some ["guests"]) (Some "t1") None)
                eq_refl eq_refl eq_refl) as [Haccess Hhandler].
  split.
  - apply Haccess.
  - apply (Hhandler _ _ _ "t1" "guest" None); try reflexivity; discriminate.
Defined.

(** ** The sort key of the two indexes *)

Lemma decimalFrom_small (fuel n : nat) (acc : string) :
  n < 10 -> decimalFrom fuel n acc = String (digit n) acc.
Proof.
  intros Hn. destruct fuel as [|fuel]; cbn [decimalFrom]; [reflexivity|].
  now rewrite (Nat.div_small n 10 Hn).
Qed.

Lemma decimalFrom_step (fuel n : nat) (acc : string) :
  10 <= n ->
  decimalFrom (S fuel) n acc = decimalFrom fuel (n / 10) (String (digit n) acc).
Proof.
  intros Hn. cbn [decimalFrom].
  destruct (Nat.eqb_spec (n / 10) 0) as [E|_]; [|reflexivity].
  apply Nat.div_small_iff in E; lia.
Qed.

Lemma div10_lt (n k : nat) : n < 10 * k -> n / 10 < k.
Proof. intros Hn. apply Nat.Div0.div_lt_upper_bound. lia. Qed.

Lemma div10_ge (n k : nat) : 10 * k <= n -> k <= n / 10.
Proof. intros Hn. apply Nat.div_le_lower_bound; lia. Qed.

Lemma digit_zero (n : nat) : n = 0 -> digit n = "0"%char.
Proof. now intros ->. Qed.

Lemma decimalFrom_two (fuel n : nat) (acc : string) :
  1 <= fuel -> 10 <= n -> n < 100 ->
  decimalFrom fuel n acc = String (digit (n / 10)) (String (digit n) acc).
Proof.
  intros Hf H1 H2. destruct fuel as [|fuel]; [lia|].
  rewrite decimalFrom_step by assumption.
  apply decimalFrom_small, div10_lt; lia.
Qed.

Lemma decimalFrom_three (fuel n : nat) (acc : string) :
  2 <= fuel -> 100 <= n -> n < 1000 ->
  decimalFrom fuel n acc =
    String (digit (n / 10 / 10)) (String (digit (n / 10)) (String (digit n) acc)).
Proof.
  intros Hf H1 H2. destruct fuel as [|fuel]; [lia|].
  rewrite decimalFrom_step by lia.
  apply decimalFrom_two; [lia | apply div10_ge; lia | apply div10_lt; lia].
Qed.

Lemma decimalFrom_four (fuel n : nat) (acc : string) :
  3 <= fuel -> 1000 <= n -> n < 10 * 1000 ->
  decimalFrom fuel n acc =
    String (digit (n / 10 / 10 / 10)) (String (digit (n / 10 / 10))
      (String (digit (n / 10)) (String (digit n) acc))).
Proof.
  intros Hf H1 H2. destruct fuel as [|fuel]; [lia|].
  rewrite decimalFrom_step by lia.
  apply decimalFrom_three; [lia | apply div10_ge; lia | apply div10_lt; lia].
Qed.

Lemma zeroFill_2 (n : nat) : n < 100 -> zeroFill n 2 = fixed2 n.
Proof.
  intros Hn. unfold zeroFill, decimal, fixed2.
  destruct (Nat.lt_ge_cases n 10) as [H1|H1].
  - rewrite decimalFrom_small by assumption.
    now rewrite (digit_zero (n / 10)) by now apply Nat.div_small.
  - now rewrite decimalFrom_two by lia.
Qed.

Lemma zeroFill_4 (n : nat) : n < 10 * 1000 -> zeroFill n 4 = fixed4 n.
Proof.
  intros Hn. unfold zeroFill, decimal, fixed4.
  assert (E100 : n / 100 = n / 10 / 10) by now rewrite Nat.Div0.div_div.
  assert (E1000 : n / 1000 = n / 10 / 10 / 10) by now rewrite !Nat.Div0.div_div.
  rewrite E100, E1000.
  destruct (Nat.lt_ge_cases n 10) as [H1|H1].
  { rewrite decimalFrom_small by assumption.
    rewrite (Nat.div_small n 10) by assumption. reflexivity. }
  destruct (Nat.lt_ge_cases n 100) as [H2|H2].
  { rewrite decimalFrom_two by lia.
    rewrite (Nat.div_small (n / 10) 10) by (apply div10_lt; lia). reflexivity. }
  destruct (Nat.lt_ge_cases n 1000) as [H3|H3].
  { rewrite decimalFrom_three by lia.
    rewrite (Nat.div_small (n / 10 / 10) 10) by (do 2 apply div10_lt; lia).
    reflexivity. }
  now rewrite decimalFrom_four by lia.
Qed.

Lemma append_assoc (s1 s2 s3 : string) : (s1 +:+ s2) +:+ s3 = s1 +:+ s2 +:+ s3.
Proof.
  induction s1 as [|c s1 IH]; [reflexivity|].
  rewrite !append_cons. now rewrite IH.
Qed.

Lemma append_empty_r (s : string) : s +:+ "" = s.
Proof.
  induction s as [|c s IH]; [reflexivity|].
  rewrite append_cons. now rewrite IH.
Qed.

Lemma compare_same_head (c : ascii) (s t : string) :
  String.compare (String c s) (String c t) = String.compare s t.
Proof.
  cbn [String.compare]. unfold Ascii.compare. now rewrite N.compare_refl.
Qed.

Lemma compare_same_prefix (p s t : string) :
  String.compare (p +:+ s) (p +:+ t) = String.compare s t.
Proof.
  induction p as [|c p IH]; [reflexivity|].
  rewrite !append_cons, compare_same_head. exact IH.
Qed.

Lemma digit_compare (p q : nat) :
  Ascii.compare (digit p) (digit q) = Nat.compare (p mod 10) (q mod 10).
Proof.
  unfold digit.
  pose proof (Nat.mod_upper_bound p 10 ltac:(lia)) as Hp.
  pose proof (Nat.mod_upper_bound q 10 ltac:(lia)) as Hq.
  set (r := p mod 10) in *. set (r' := q mod 10) in *. clearbody r r'.
  do 10 (destruct r as [|r]; [do 10 (destruct r' as [|r']; [reflexivity|]); lia|]).
  lia.
Qed.

Lemma compare_div10 (x y : nat) :
  Nat.compare x y =
    match Nat.compare (x / 10) (y / 10) with
    | Eq => Nat.compare (x mod 10) (y mod 10)
    | c => c
    end.
Proof.
  pose proof (Nat.div_mod_eq x 10) as Ex.
  pose proof (Nat.div_mod_eq y 10) as Ey.
  pose proof (Nat.mod_upper_bound x 10 ltac:(lia)) as Hx.
  pose proof (Nat.mod_upper_bound y 10 ltac:(lia)) as Hy.
  destruct (Nat.compare_spec (x / 10) (y / 10)) as [E|L|G].
  - destruct (Nat.compare_spec (x mod 10) (y mod 10)) as [E'|L'|G'].
    + apply Nat.compare_eq_iff. lia.
    + apply Nat.compare_lt_iff. lia.
    + apply Nat.compare_gt_iff. lia.
  - apply Nat.compare_lt_iff. lia.
  - apply Nat.compare_gt_iff. lia.
Qed.

Lemma compare_fixed2 (x y : nat) (s t : string) :
  x < 100 -> y < 100 ->
  String.compare (fixed2 x +:+ s) (fixed2 y +:+ t) =
    match Nat.compare x y with
    | Eq => String.compare s t
    | c => c
    end.
Proof.
  intros Hx Hy. unfold fixed2. rewrite !append_cons.
  cbn [String.compare]. rewrite !digit_compare.
  rewrite (compare_div10 x y).
  rewrite (Nat.mod_small (x / 10) 10) by (apply div10_lt; lia).
  rewrite (Nat.mod_small (y / 10) 10) by (apply div10_lt; lia).
  destruct (Nat.compare (x / 10) (y / 10)); reflexivity.
Qed.

Lemma compare_fixed4 (x y : nat) (s t : string) :
  x < 10 * 1000 -> y < 10 * 1000 ->
  String.compare (fixed4 x +:+ s) (fixed4 y +:+ t) =
    match Nat.compare x y with
    | Eq => String.compare s t
    | c => c
    end.
Proof.
  intros Hx Hy. unfold fixed4. rewrite !append_cons.
  cbn [String.compare]. rewrite !digit_compare.
  rewrite (compare_div10 x y), (compare_div10 (x / 10) (y / 10)),
    (compare_div10 (x / 10 / 10) (y / 10 / 10)).
  rewrite !Nat.Div0.div_div.
  change (10 * 10) with 100. change (10 * 100) with 1000.
  rewrite (Nat.mod_small (x / 1000) 10) by (apply Nat.Div0.div_lt_upper_bound; lia).
  rewrite (Nat.mod_small (y / 1000) 10) by (apply Nat.Div0.div_lt_upper_bound; lia).
  destruct (Nat.compare (x / 1000) (y / 1000)); try reflexivity.
  destruct (Nat.compare ((x / 100) mod 10) ((y / 100) mod 10)); try reflexivity.
  destruct (Nat.compare ((x / 10) mod 10) ((y / 10) mod 10)); reflexivity.
Qed.

Lemma daysInMonth_le (y m : nat) : daysInMonth y m <= 31.
Proof.
  unfold daysInMonth.
  do 12 (destruct m as [|m]; [try destruct (isLeapYear y); lia|]). lia.
Qed.

Lemma validDateTime_bounds (t : DateTime) :
  validDateTime t = true ->
  month t < 100 /\ day t < 100 /\ hour t < 100 /\ minute t < 100 /\ second t < 100.
Proof.
  unfold validDateTime. rewrite !andb_true_iff.
  rewrite !Nat.leb_le, !Nat.ltb_lt.
  pose proof (daysInMonth_le (year t) (month t)). lia.
Qed.

Lemma sortKey_fixed (t : DateTime) :
  validDateTime t = true -> fourDigitYear t = true ->
  KeyCodec.sortKey t =
    "DATE#" +:+ fixed4 (year t) +:+ "-" +:+ fixed2 (month t) +:+ "-" +:+
    fixed2 (day t) +:+ "#TIME#" +:+ fixed2 (hour t) +:+ ":" +:+
    fixed2 (minute t) +:+ ":" +:+ fixed2 (second t) +:+ "".
Proof.
  intros Hv Hy. apply validDateTime_bounds in Hv as (Hm & Hd & Hh & Hmi & Hs).
  apply Nat.ltb_lt in Hy.
  unfold KeyCodec.sortKey, formatDate, formatTime.
  rewrite zeroFill_4 by assumption. rewrite !zeroFill_2 by assumption.
  rewrite !append_assoc, append_empty_r. reflexivity.
Qed.

Lemma sortKey_compare (a b : DateTime) :
  validDateTime a = true -> validDateTime b = true ->
  fourDigitYear a = true -> fourDigitYear b = true ->
  String.compare (KeyCodec.sortKey a) (KeyCodec.sortKey b) =
    lexCompare (toTheSecond a) (toTheSecond b).
Proof.
  intros Hva Hvb Hya Hyb.
  rewrite (sortKey_fixed a), (sortKey_fixed b) by assumption.
  apply validDateTime_bounds in Hva as (Hma & Hda & Hha & Hmia & Hsa).
  apply validDateTime_bounds in Hvb as (Hmb & Hdb & Hhb & Hmib & Hsb).
  apply Nat.ltb_lt in Hya, Hyb.
  unfold toTheSecond. cbn [lexCompare].
  rewrite compare_same_prefix, compare_fixed4 by assumption.
  rewrite compare_same_prefix, compare_fixed2 by assumption.
  rewrite compare_same_prefix, compare_fixed2 by assumption.
  rewrite compare_same_prefix, compare_fixed2 by assumption.
  rewrite compare_same_prefix, compare_fixed2 by assumption.
  rewrite compare_same_prefix, compare_fixed2 by assumption.
  reflexivity.
Qed.


(** ** Invariants of the table *)

Section TableInvariants.
Import AppointmentService.
Context `{Libraries}.

Lemma newItem_wellKeyed (a : Appointment) :
  wellKeyed (KeyCodec.primaryKey (tenantId a) (appointmentId a)) (newItem a).
Proof. repeat split. Qed.

Lemma applyPatch_wellKeyed key value now item :
  wellKeyed key item -> wellKeyed key (applyPatch value now item).
Proof. intros Hw. exact Hw. Qed.

Lemma createAppointment_cases table rt tenant user role data :
  let result := createAppointment table rt tenant user role data in
  (result.2 = table /\ exists e, result.1 = Thrown e) \/
  (exists value,
     validateAppointment data = Some value /\
     let a := newAppointment rt tenant user value in
     table !! KeyCodec.primaryKey tenant (uuid rt) = None /\
     result = (Returned a, <[KeyCodec.primaryKey tenant (uuid rt) := newItem a]> table)).
Proof.
  unfold createAppointment.
  destruct (validateAppointment data) as [value|]; [|left; eauto].
  cbn [newItem newAppointment PK SK tenantId appointmentId fst snd].
  destruct (table !! _) eqn:Elookup; [left; eauto|].
  right. exists value. repeat split.
Qed.

Lemma updateAppointment_cases table now tenant id user role data :
  let result := updateAppointment table now tenant id user role data in
  result.2 = table \/
  (exists value existing,
     validateUpdate data = Some value /\
     table !! KeyCodec.primaryKey tenant id = Some existing /\
     denied role user (attributes existing) = false /\
     result = (Returned (Some (applyPatch value now existing)),
               <[KeyCodec.primaryKey tenant id := applyPatch value now existing]> table)).
Proof.
  unfold updateAppointment, getAppointment.
  destruct (validateUpdate data) as [value|]; [|now left].
  destruct (table !! _) as [existing|] eqn:Elookup; [|now left].
  destruct (denied role user (attributes existing)) eqn:Edenied; [now left|].
  rewrite Edenied. right. exists value, existing. repeat split. exact Edenied.
Qed.

Lemma deleteAppointment_cases table tenant id user role :
  let result := deleteAppointment table tenant id user role in
  result.2 = table \/ result.2 = delete (KeyCodec.primaryKey tenant id) table.
Proof.
  unfold deleteAppointment, getAppointment.
  destruct (table !! _) as [existing|]; [|now left].
  destruct (denied role user (attributes existing)) eqn:Edenied; [now left|].
  rewrite Edenied. now right.
Qed.

Lemma reachable_invariant table :
  reachable table -> map_Forall wellKeyed table /\ uniqueIds table.
Proof.
  induction 1 as [|table rt tenant user role data _ [IHk IHu] Hfresh
                  |table now tenant id user role data _ [IHk IHu]
                  |table tenant id user role _ [IHk IHu]].
  - split; [apply map_Forall_empty|]. intros k1 k2 i1 i2 E. now rewrite lookup_empty in E.
  - destruct (createAppointment_cases table rt tenant user role data)
      as [[-> _]|(value & _ & _ & ->)]; [now split|].
    cbn [snd]. set (a := newAppointment rt tenant user value). split.
    + apply map_Forall_insert_2; [|exact IHk]. apply (newItem_wellKeyed a).
    + intros k1 k2 i1 i2 E1 E2 Eid.
      rewrite lookup_insert in E1, E2.
      destruct (decide (_ = k1)) as [<-|N1], (decide (_ = k2)) as [<-|N2];
        simplify_eq; try reflexivity.
      * exfalso. apply (Hfresh _ _ E2). now rewrite <- Eid.
      * exfalso. apply (Hfresh _ _ E1). now rewrite Eid.
      * eapply IHu; eassumption.
  - destruct (updateAppointment_cases table now tenant id user role data)
      as [->|(value & existing & _ & Elookup & _ & ->)]; [now split|].
    cbn [snd]. split.
    + apply map_Forall_insert_2; [|exact IHk].
      apply applyPatch_wellKeyed, (IHk _ _ Elookup).
    + intros k1 k2 i1 i2 E1 E2 Eid.
      rewrite lookup_insert in E1, E2.
      destruct (decide (_ = k1)) as [<-|N1], (decide (_ = k2)) as [<-|N2];
        simplify_eq; try reflexivity.
      * eapply IHu; [exact Elookup | exact E2 | exact Eid].
      * eapply IHu; [exact E1 | exact Elookup | exact Eid].
      * eapply IHu; eassumption.
  - destruct (deleteAppointment_cases table tenant id user role) as [->| ->];
      [now split|]. split.
    + now apply map_Forall_delete.
    + intros k1 k2 i1 i2 E1 E2 Eid.
      apply lookup_delete_Some in E1 as [_ E1], E2 as [_ E2].
      eapply IHu; eassumption.
Qed.

Lemma built_wellKeyed table : built table -> map_Forall wellKeyed table.
Proof.
  induction 1 as [|table op _ IH]; [apply map_Forall_empty|].
  destruct op as [rt tenant user role data|now tenant id user role data
                  |tenant id user role]; cbn [perform].
  - destruct (createAppointment_cases table rt tenant user role data)
      as [[-> _]|(value & _ & _ & ->)]; [exact IH|].
    cbn [snd]. apply map_Forall_insert_2; [|exact IH].
    apply (newItem_wellKeyed (newAppointment rt tenant user value)).
  - destruct (updateAppointment_cases table now tenant id user role data)
      as [->|(value & existing & _ & Elookup & _ & ->)]; [exact IH|].
    cbn [snd]. apply map_Forall_insert_2; [|exact IH].
    apply applyPatch_wellKeyed, (IH _ _ Elookup).
  - destruct (deleteAppointment_cases table tenant id user role) as [->| ->];
      [exact IH|]. now apply map_Forall_delete.
Qed.

Lemma reachable_built table : reachable table -> built table.
Proof.
  induction 1 as [|table rt tenant user role data _ IH _
                  |table now tenant id user role data _ IH
                  |table tenant id user role _ IH].
  - apply built_empty.
  - exact (built_perform table (Create rt tenant user role data) IH).
  - exact (built_perform table (Update now tenant id user role data) IH).
  - exact (built_perform table (Delete tenant id user role) IH).
Qed.

End TableInvariants.

(** ** The owner-index partition key *)

Lemma split_at_delimiter (h : ascii) (o u r1 r2 : list ascii) :
  ~ In h o -> ~ In h u -> o ++ h :: r1 = u ++ h :: r2 -> o = u /\ r1 = r2.
Proof.
  revert u. induction o as [|c o IH]; intros [|d u] Ho Hu E; simpl in *.
  - injection E as ->. now split.
  - injection E as -> _. exfalso. apply Hu. now left.
  - injection E as -> _. exfalso. apply Ho. now left.
  - injection E as -> E.
    destruct (IH u) as [-> ->]; [tauto | tauto | exact E | now split].
Qed.

Lemma delimiterFree_spec (s : string) :
  delimiterFree s = true -> ~ In "#"%char (chars s).
Proof.
  unfold delimiterFree. intros Hs Hin.
  apply negb_true_iff in Hs.
  assert (existsb (Ascii.eqb "#") (chars s) = true) as E; [|congruence].
  apply existsb_exists. exists "#"%char. split; [exact Hin | apply Ascii.eqb_refl].
Qed.

Lemma ownerKey_inv (t1 u1 t2 u2 : string) :
  delimiterFree u1 = true -> delimiterFree u2 = true ->
  "TENANT#" +:+ t1 +:+ "#USER#" +:+ u1 = "TENANT#" +:+ t2 +:+ "#USER#" +:+ u2 ->
  t1 = t2 /\ u1 = u2.
Proof.
  intros H1%delimiterFree_spec H2%delimiterFree_spec E.
  apply append_inv_head in E.
  apply (f_equal chars) in E. rewrite !chars_app in E.
  apply (f_equal (@rev ascii)) in E. rewrite !rev_app_distr in E.
  cbn [chars String.list_ascii_of_string rev app] in E.
  rewrite <- !app_assoc in E. cbn [app] in E.
  apply split_at_delimiter in E as [Eu Et].
  - apply (f_equal (@rev ascii)) in Eu. rewrite !rev_involutive in Eu.
    injection Et as Et.
    apply (f_equal (@rev ascii)) in Et. rewrite !rev_involutive in Et.
    split; now apply chars_inj.
  - now rewrite <- in_rev.
  - now rewrite <- in_rev.
Qed.

(** ** Index queries *)

Section Queries.
Import AppointmentService.
Context `{Libraries}.

Lemma In_insertBySortKey (sortKey : Item -> string) (x y : Item) (l : list Item) :
  In y (insertBySortKey sortKey x l) <-> y = x \/ In y l.
Proof.
  induction l as [|z l IH]; simpl.
  - intuition.
  - destruct (String.leb (sortKey x) (sortKey z)); simpl; [intuition|].
    rewrite IH. intuition.
Qed.

Lemma In_sorted (sortKey : Item -> string) (y : Item) (l : list Item) :
  In y (foldr (insertBySortKey sortKey) [] l) <-> In y l.
Proof.
  induction l as [|x l IH]; simpl; [reflexivity|].
  rewrite In_insertBySortKey, IH. intuition.
Qed.

Lemma In_query (partitionKey sortKey : Item -> string) (value : string)
    (table : Table) (item : Item) :
  In item (query partitionKey sortKey value table) <->
  (exists key, table !! key = Some item) /\ partitionKey item = value.
Proof.
  unfold query. rewrite In_sorted, filter_In, String.eqb_eq.
  rewrite <- list_elem_of_In, list_elem_of_fmap.
  split; intros [Hin Hpk]; (split; [|exact Hpk]).
  - destruct Hin as ([key item'] & -> & Hin). exists key.
    now apply elem_of_map_to_list in Hin.
  - destruct Hin as [key Hin]. exists (key, item). split; [reflexivity|].
    now apply elem_of_map_to_list.
Qed.

Lemma leb_flip (s t : string) : String.leb s t = false -> String.leb t s = true.
Proof.
  intros E. destruct (String.leb_total s t) as [E'|E']; [congruence | exact E'].
Qed.

Lemma leb_trans (s t u : string) :
  String.leb s t = true -> String.leb t u = true -> String.leb s u = true.
Proof.
  intros Hst Htu. apply Is_true_true.
  apply Is_true_true in Hst, Htu.
  exact (transitivity (R := String.le) Hst Htu).
Qed.

Lemma insertBySortKey_sorted (sortKey : Item -> string) (x : Item) (l : list Item) :
  StronglySorted (fun a b => String.leb (sortKey a) (sortKey b) = true) l ->
  StronglySorted (fun a b => String.leb (sortKey a) (sortKey b) = true)
    (insertBySortKey sortKey x l).
Proof.
  induction 1 as [|y l Hsorted IH Hall]; cbn [insertBySortKey].
  - repeat constructor.
  - destruct (String.leb (sortKey x) (sortKey y)) eqn:Exy.
    + constructor; [now constructor|].
      constructor; [exact Exy|].
      rewrite Forall_forall in Hall. apply Forall_forall. intros z Hz.
      apply (leb_trans _ (sortKey y)); [exact Exy | now apply Hall].
    + constructor; [exact IH|].
      apply Forall_forall. intros z Hz.
      apply list_elem_of_In, In_insertBySortKey in Hz as [->|Hz].
      * now apply leb_flip.
      * rewrite Forall_forall in Hall. now apply Hall, list_elem_of_In.
Qed.

(** An index query answers in the order of the sort key. *)
Lemma query_sorted (partitionKey sortKey : Item -> string) (value : string)
    (table : Table) :
  StronglySorted (fun a b => String.leb (sortKey a) (sortKey b) = true)
    (query partitionKey sortKey value table).
Proof.
  unfold query.
  induction (List.filter _ _) as [|x l IH]; cbn [foldr].
  - constructor.
  - now apply insertBySortKey_sorted.
Qed.

End Queries.

(** ** The order of a tenant scan *)

Section Chronology.
Import AppointmentService.
Context `{Libraries}.

Lemma StronglySorted_filter {A : Type} (R : A -> A -> Prop) (f : A -> bool)
    (l : list A) :
  StronglySorted R l -> StronglySorted R (List.filter f l).
Proof.
  induction 1 as [|x l Hsorted IH Hall]; cbn [List.filter]; [constructor|].
  destruct (f x); [|exact IH].
  constructor; [exact IH|].
  rewrite List.Forall_forall in *. intros y Hy.
  apply filter_In in Hy as [Hy _]. now apply Hall.
Qed.

Lemma StronglySorted_weaken {A : Type} (R R' : A -> A -> Prop) (l : list A) :
  (forall x y, In x l -> In y l -> R x y -> R' x y) ->
  StronglySorted R l -> StronglySorted R' l.
Proof.
  intros Himp Hsorted.
  induction Hsorted as [|x l Hsorted IH Hall]; [constructor|].
  constructor.
  - apply IH. intros a b Ha Hb. apply Himp; now right.
  - rewrite List.Forall_forall in *. intros y Hy.
    apply Himp; [now left | now right | now apply Hall].
Qed.

Lemma earlier_leb (a b : DateTime) :
  validDateTime a = true -> validDateTime b = true ->
  fourDigitYear a = true -> fourDigitYear b = true ->
  earlier a b = true ->
  String.leb (KeyCodec.sortKey a) (KeyCodec.sortKey b) = true.
Proof.
  intros Hva Hvb Hya Hyb Hlt. unfold String.leb.
  rewrite sortKey_compare by assumption.
  unfold earlier, compareTime, fieldsOf in Hlt.
  unfold toTheSecond. cbn [lexCompare] in *.
  destruct (Nat.compare (year a) (year b)); try reflexivity; try discriminate.
  destruct (Nat.compare (month a) (month b)); try reflexivity; try discriminate.
  destruct (Nat.compare (day a) (day b)); try reflexivity; try discriminate.
  destruct (Nat.compare (hour a) (hour b)); try reflexivity; try discriminate.
  destruct (Nat.compare (minute a) (minute b)); try reflexivity; try discriminate.
  destruct (Nat.compare (second a) (second b)); try reflexivity; try discriminate.
Qed.

Lemma leb_chronological (x y : Item) :
  encodesStart x -> encodesStart y ->
  String.leb (GSI1SK x) (GSI1SK y) = true -> chronological x y.
Proof.
  intros (Ex & _ & Vx & Yx) (Ey & _ & Vy & Yy) Hleb.
  unfold chronological. rewrite <- (sortKey_compare _ _ Vx Vy Yx Yy), <- Ex, <- Ey.
  unfold String.leb in Hleb. destruct (String.compare _ _); congruence.
Qed.

Lemma perform_encodesStart (table : Table) (op : Operation) :
  keepsSortKeys op ->
  map_Forall (fun _ item => encodesStart item) table ->
  map_Forall (fun _ item => encodesStart item) (perform table op).
Proof.
  intros Hop Henc.
  destruct op as [rt tenant user role data|now tenant id user role data
                  |tenant id user role]; cbn [perform keepsSortKeys] in *.
  - destruct (createAppointment_cases table rt tenant user role data)
      as [[-> _]|(value & Hvalid & _ & ->)]; [exact Henc|].
    cbn [snd]. apply map_Forall_insert_2; [|exact Henc].
    unfold validateAppointment in Hvalid.
    destruct (in_title data) as [t|], (in_startTime data) as [st|],
      (in_endTime data) as [et|]; try discriminate Hvalid.
    destruct (_ && _) eqn:Echecks in Hvalid; [|discriminate Hvalid].
    injection Hvalid as <-.
    rewrite !andb_true_iff in Echecks.
    destruct Echecks as ((((_ & Hst) & _) & _) & _).
    repeat split; [exact Hst | now apply Hop].
  - destruct (updateAppointment_cases table now tenant id user role data)
      as [->|(value & existing & Hvalid & Elookup & _ & ->)]; [exact Henc|].
    cbn [snd]. apply map_Forall_insert_2; [|exact Henc].
    unfold validateUpdate in Hvalid.
    destruct (_ && _) in Hvalid; [|discriminate Hvalid].
    injection Hvalid as <-.
    unfold encodesStart. cbn. rewrite Hop. cbn.
    exact (Henc _ _ Elookup).
  - destruct (deleteAppointment_cases table tenant id user role) as [->| ->];
      [exact Henc|]. now apply map_Forall_delete.
Qed.

Lemma calls_encodesStart (calls : list Operation) (table : Table) :
  Forall keepsSortKeys calls ->
  map_Forall (fun _ item => encodesStart item) table ->
  map_Forall (fun _ item => encodesStart item) (fold_left perform calls table).
Proof.
  intros Hcalls. revert table.
  induction Hcalls as [|op calls Hop _ IH]; intros table Henc; [exact Henc|].
  cbn [fold_left]. apply IH. now apply perform_encodesStart.
Qed.

Lemma tenant_scan_sorted (table : Table) (tenant user : string)
    (filters : AppointmentFilters) (items : list Item) :
  map_Forall (fun _ item => encodesStart item) table ->
  listAppointments table tenant user "super-admin" filters = Returned items ->
  StronglySorted chronological items.
Proof.
  intros Henc Hlist. unfold listAppointments in Hlist.
  destruct (statusNameUnused filters); [discriminate Hlist|].
  injection Hlist as <-.
  cbn [String.eqb Ascii.eqb Bool.eqb].
  apply StronglySorted_filter.
  eapply StronglySorted_weaken; [|apply query_sorted].
  intros x y Hx Hy Hleb.
  apply In_query in Hx as [[kx Hx] _]. apply In_query in Hy as [[ky Hy] _].
  apply leb_chronological; [exact (Henc _ _ Hx) | exact (Henc _ _ Hy) | exact Hleb].
Qed.

End Chronology.

(** C9, as amended. For start times that are calendar instants of a year of
    four digits, the range in which [YYYY] has a fixed width, the tenant-index
    sort key orders as the start times do, to the second: two appointments
    of one tenant share [GSI1PK], their [GSI1SK] strings compare as their
    start times cut to the second compare, so the earlier one never has
    the greater key. Hence, in every table built from the empty one by
    creates of such start times, updates that supply no start time and
    deletes, a scan of the tenant index lists the appointments in
    chronological order of start time, to the second. *)
Theorem tenant_scan_is_chronological `{Libraries} (calls : list Operation)
    (tenant user : string) (filters : AppointmentService.AppointmentFilters)
    (a b : DateTime) :
  validDateTime a = true -> validDateTime b = true ->
  fourDigitYear a = true -> fourDigitYear b = true ->
  Forall keepsSortKeys calls ->
  AppointmentService.statusNameUnused filters = false ->
  (KeyCodec.tenantIndexKey tenant a).1 = (KeyCodec.tenantIndexKey tenant b).1 /\
  String.compare (KeyCodec.tenantIndexKey tenant a).2 (KeyCodec.tenantIndexKey tenant b).2
    = lexCompare (toTheSecond a) (toTheSecond b) /\
  (earlier a b = true ->
   String.leb (KeyCodec.tenantIndexKey tenant a).2 (KeyCodec.tenantIndexKey tenant b).2
     = true) /\
  exists items,
    AppointmentService.listAppointments (fold_left perform calls ∅) tenant user
      "super-admin" filters = Returned items /\
    StronglySorted chronological items.
Proof.
  intros Hva Hvb Hya Hyb Hcalls Hfilters.
  split; [reflexivity|]. split; [now apply sortKey_compare|].
  split; [now apply earlier_leb|].
  assert (Hlist : exists items,
             AppointmentService.listAppointments (fold_left perform calls ∅) tenant user
               "super-admin" filters = Returned items).
  { unfold AppointmentService.listAppointments. rewrite Hfilters. eauto. }
  destruct Hlist as [items Hlist]. exists items. split; [exact Hlist|].
  apply (tenant_scan_sorted (fold_left perform calls ∅) tenant user filters);
    [|exact Hlist].
  apply calls_encodesStart; [exact Hcalls | apply map_Forall_empty].
Qed.

Lemma tenant_scan_is_chronological_witness :
  String.compare (KeyCodec.tenantIndexKey "t1" sampleStart).2
    (KeyCodec.tenantIndexKey "t1" (mkDateTime 2024 6 1 11 0 0 0)).2 = Lt /\
  exists items,
    AppointmentService.listAppointments (H := sampleLibraries) tableWithTwo "t1" "root"
      "super-admin" Handler.noFilters = Returned items /\
    StronglySorted chronological items.
Proof.
  destruct (tenant_scan_is_chronological (H := sampleLibraries)
              [Create sampleRuntime "t1" "u1" "tenant-user" sampleData;
               Create secondRuntime "t1" "u1" "tenant-user" secondData]
              "t1" "root" Handler.noFilters sampleStart (mkDateTime 2024 6 1 11 0 0 0))
    as (_ & Hcompare & _ & Hscan); try reflexivity.
  - repeat constructor; intros start Estart; injection Estart as <-; reflexivity.
  - split; [exact Hcompare | exact Hscan].
Defined.

(** C9, as stated, fails beyond the year 9999, which create accepts: the last
    second of 9999 is earlier than the first of 10000, yet its sort key is
    the greater one, because [YYYY] prints five digits for 10000; and the
    tenant scan lists the later appointment first. *)
Lemma sort_key_order_breaks_after_9999 :
  validDateTime endOf9999 = true /\ validDateTime startOf10000 = true /\
  earlier endOf9999 startOf10000 = true /\
  String.leb (KeyCodec.tenantIndexKey "t1" endOf9999).2
    (KeyCodec.tenantIndexKey "t1" startOf10000).2 = false /\
  schedule (AppointmentService.listAppointments (H := sampleLibraries) tableAcrossYears
              "t1" "root" "super-admin" Handler.noFilters)
  = [("id-2", startOf10000); ("id-1", endOf9999)].
Proof. repeat split; vm_compute; reflexivity. Qed.

(** ** Tenant isolation *)

Section Isolation.
Import AppointmentService.
Context `{Libraries}.

Lemma getAppointment_other_tenant (table : Table) key item tenantB userB role :
  map_Forall wellKeyed table -> uniqueIds table ->
  table !! key = Some item ->
  tenantId (attributes item) <> tenantB ->
  getAppointment table tenantB (appointmentId (attributes item)) userB role
    = Returned None.
Proof.
  intros Hk Hu Hitem Hne. unfold getAppointment.
  destruct (table !! KeyCodec.primaryKey tenantB _) as [other|] eqn:Eother;
    [|reflexivity].
  exfalso.
  destruct (Hk _ _ Eother) as (Ekey & _).
  apply primaryKey_inv in Ekey as [EtenantB Eid].
  destruct (Hk _ _ Hitem) as (Ekey' & _).
  pose proof (Hu _ _ _ _ Hitem Eother Eid) as Esame.
  rewrite Ekey' in Esame.
  apply primaryKey_inv in Esame as [Et _]. now apply Hne.
Qed.

Lemma getAppointment_absent (table : Table) id tenantB userB role :
  map_Forall wellKeyed table -> freshId id table ->
  getAppointment table tenantB id userB role = Returned None.
Proof.
  intros Hk Hfresh. unfold getAppointment.
  destruct (table !! KeyCodec.primaryKey tenantB id) as [other|] eqn:Eother;
    [|reflexivity].
  exfalso. apply (Hfresh _ _ Eother).
  destruct (Hk _ _ Eother) as (Ekey & _).
  now apply primaryKey_inv in Ekey as [_ <-].
Qed.

Lemma listAppointments_other_tenant (table : Table) key item tenantB userB role filters :
  map_Forall wellKeyed table ->
  table !! key = Some item ->
  tenantId (attributes item) <> tenantB ->
  delimiterFree (userId (attributes item)) = true ->
  delimiterFree userB = true ->
  forall items,
    listAppointments table tenantB userB role filters = Returned items ->
    ~ In item items.
Proof.
  intros Hk Hitem Hne Howner Hcaller items Hlist Hin.
  destruct (Hk _ _ Hitem) as (_ & _ & _ & E1 & E2).
  unfold listAppointments in Hlist.
  destruct (statusNameUnused filters); [discriminate Hlist|].
  injection Hlist as <-.
  apply filter_In in Hin as [Hin _].
  destruct (String.eqb role "super-admin").
  - apply In_query in Hin as [_ Epk]. rewrite E1 in Epk.
    now apply append_inv_head in Epk.
  - apply In_query in Hin as [_ Epk]. rewrite E2 in Epk.
    now apply ownerKey_inv in Epk as [Et _].
Qed.

End Isolation.

(** Where the scoping by keys does isolate tenants. In every table the
    service can build with identifiers that do not repeat, a record of tenant
    A is out of reach under the scope of another tenant B: a list call for B
    returns it to no caller when neither its owner's identifier nor the
    caller's contains the key delimiter ['#'], and a get for its identifier
    under B returns [null], as it does for an identifier no record carries. *)
Theorem cross_tenant_isolation `{Libraries}
    (table : AppointmentService.Table) (key : string * string)
    (item : AppointmentService.Item) (tenantB userB role : string)
    (filters : AppointmentService.AppointmentFilters) :
  AppointmentService.reachable table ->
  table !! key = Some item ->
  AppointmentService.tenantId (AppointmentService.attributes item) <> tenantB ->
  (delimiterFree (AppointmentService.userId (AppointmentService.attributes item)) = true ->
   delimiterFree userB = true ->
   forall items,
     AppointmentService.listAppointments table tenantB userB role filters = Returned items ->
     ~ In item items) /\
  AppointmentService.getAppointment table tenantB
    (AppointmentService.appointmentId (AppointmentService.attributes item)) userB role
    = Returned None /\
  (forall absentId,
     AppointmentService.freshId absentId table ->
     AppointmentService.getAppointment table tenantB absentId userB role = Returned None).
Proof.
  intros Hreach Hitem Hne.
  destruct (reachable_invariant table Hreach) as [Hk Hu].
  split; [|split].
  - intros Howner Hcaller. now apply (listAppointments_other_tenant table key).
  - now apply (getAppointment_other_tenant table key).
  - intros absentId Hfresh. now apply getAppointment_absent.
Qed.

Lemma tableAfterCreate_reachable (tenant user : string) :
  AppointmentService.reachable (H := sampleLibraries) (tableAfterCreate tenant user).
Proof.
  apply AppointmentService.reach_create.
  - apply AppointmentService.reach_empty.
  - apply map_Forall_empty.
Qed.

Lemma cross_tenant_isolation_witness :
  (forall items,
     AppointmentService.listAppointments (H := sampleLibraries)
       (tableAfterCreate "t1" "u1") "t2" "u2" "tenant-user" Handler.noFilters
       = Returned items ->
     forall item,
       tableAfterCreate "t1" "u1" !! KeyCodec.primaryKey "t1" "id-1" = Some item ->
       ~ In item items) /\
  AppointmentService.getAppointment (tableAfterCreate "t1" "u1") "t2" "id-1" "u2"
    "tenant-user" = Returned None.
Proof.
  assert (Hitem : tableAfterCreate "t1" "u1" !! KeyCodec.primaryKey "t1" "id-1"
                  = Some (AppointmentService.newItem
                            (AppointmentService.mkAppointment "id-1" "t1" "u1" "Sync" None
                               sampleStart sampleEnd None [] AppointmentService.scheduled
                               60 (AppointmentService.now sampleRuntime)
                               (AppointmentService.now sampleRuntime) 1748595600)))
    by (vm_compute; reflexivity).
  destruct (cross_tenant_isolation (H := sampleLibraries) (tableAfterCreate "t1" "u1")
              _ _ "t2" "u2" "tenant-user" Handler.noFilters
              (tableAfterCreate_reachable "t1" "u1") Hitem)
    as (Hlist & Hget & _).
  - discriminate.
  - split; [|exact Hget].
    intros items Hitems item Hitem'. rewrite Hitem in Hitem'. injection Hitem' as <-.
    apply Hlist; [reflexivity | reflexivity | exact Hitems].
Defined.

(** C1, on the code. The record that user [b#USER#c] of tenant [a] creates is
    listed for user [c] of the different tenant [a#USER#b]: both derive the
    owner-index partition [TENANT#a#USER#b#USER#c], since the key is built by
    joining identifiers that may themselves contain the delimiter. The list
    of a regular user of one tenant so returns a record of another tenant
    and of another user. *)
Theorem cross_tenant_list_leak :
  exists item,
    AppointmentService.reachable (H := sampleLibraries) (tableAfterCreate "a" "b#USER#c") /\
    tableAfterCreate "a" "b#USER#c" !! KeyCodec.primaryKey "a" "id-1" = Some item /\
    AppointmentService.tenantId (AppointmentService.attributes item) = "a" /\
    "a" <> "a#USER#b" /\
    AppointmentService.listAppointments (H := sampleLibraries)
      (tableAfterCreate "a" "b#USER#c") "a#USER#b" "c" "tenant-user" Handler.noFilters
      = Returned [item].
Proof.
  eexists. split; [apply tableAfterCreate_reachable|].
  split; [vm_compute; reflexivity|].
  split; [reflexivity|].
  split; [discriminate|].
  vm_compute. reflexivity.
Qed.

(** ** Create *)

(** C6, on the code. After a successful create, a get for the same tenant and
    the returned identifier, by the owner or by a super administrator, finds
    the item that was put, but the object it hands back is not the record
    create returned: its [startTime] and [endTime] are empty objects where
    create returned the [Date]s of the request, and it carries the six key
    attributes besides. Every other attribute is the one create returned. *)
Theorem get_after_create_loses_times `{Libraries}
    (table table' : AppointmentService.Table)
    (rt : AppointmentService.Runtime) (tenant user role user' role' : string)
    (data : AppointmentService.RequestData) (created : AppointmentService.Appointment) :
  AppointmentService.createAppointment table rt tenant user role data
    = (Returned created, table') ->
  role' = "super-admin" \/ user' = user ->
  exists item keys,
    AppointmentService.getAppointment table' tenant
      (AppointmentService.appointmentId created) user' role' = Returned (Some item) /\
    DocumentClient.fetched item
      = DocumentClient.object (Some keys) (fun _ => DocumentClient.EmptyObject) created /\
    DocumentClient.returned created
      = DocumentClient.object None DocumentClient.DateObject created /\
    DocumentClient.startTime (DocumentClient.fetched item) = DocumentClient.EmptyObject /\
    DocumentClient.endTime (DocumentClient.fetched item) = DocumentClient.EmptyObject /\
    DocumentClient.startTime (DocumentClient.returned created)
      = DocumentClient.DateObject (AppointmentService.startTime created) /\
    DocumentClient.endTime (DocumentClient.returned created)
      = DocumentClient.DateObject (AppointmentService.endTime created) /\
    DocumentClient.fetched item <> DocumentClient.returned created.
Proof.
  intros Hcreate Hauth.
  destruct (createAppointment_cases table rt tenant user role data)
    as [[_ [e He]]|(value & _ & _ & E)].
  - rewrite Hcreate in He. discriminate He.
  - rewrite Hcreate in E. injection E as -> ->.
    exists (AppointmentService.newItem (AppointmentService.newAppointment rt tenant user value)).
    eexists. split; [|repeat split; try reflexivity; discriminate].
    unfold AppointmentService.getAppointment.
    cbn [AppointmentService.newAppointment AppointmentService.appointmentId].
    rewrite lookup_insert_eq.
    unfold AppointmentService.denied.
    cbn [AppointmentService.newItem AppointmentService.attributes
         AppointmentService.newAppointment AppointmentService.userId].
    destruct Hauth as [-> | ->].
    + reflexivity.
    + rewrite String.eqb_refl, andb_false_r. reflexivity.
Qed.

Lemma get_after_create_loses_times_witness :
  exists item,
    AppointmentService.getAppointment (tableAfterCreate "t1" "u1") "t1" "id-1" "u1"
      "tenant-user" = Returned (Some item) /\
    DocumentClient.startTime (DocumentClient.fetched item) = DocumentClient.EmptyObject /\
    DocumentClient.startTime
      (DocumentClient.returned
         (AppointmentService.newAppointment sampleRuntime "t1" "u1"
            (AppointmentService.mkNewValue "Sync" None sampleStart sampleEnd None None
               AppointmentService.scheduled 60)))
      = DocumentClient.DateObject sampleStart.
Proof.
  destruct (get_after_create_loses_times (H := sampleLibraries) ∅
              (tableAfterCreate "t1" "u1")
              sampleRuntime "t1" "u1" "tenant-user" "u1" "tenant-user" sampleData
              (AppointmentService.newAppointment sampleRuntime "t1" "u1"
                 (AppointmentService.mkNewValue "Sync" None sampleStart sampleEnd None None
                    AppointmentService.scheduled 60)))
    as (item & keys & Hget & _ & _ & Hfetched & _ & Hreturned & _).
  - reflexivity.
  - now right.
  - exists item. split; [exact Hget|]. split; [exact Hfetched | exact Hreturned].
Defined.

(** C8. A create whose end time is not strictly after its start time throws
    the validation error and leaves the table as it was: no item is put, so
    no index entry appears. *)
Theorem create_rejects_end_not_after_start `{Libraries}
    (table : AppointmentService.Table) (rt : AppointmentService.Runtime)
    (tenant user role : string) (data : AppointmentService.RequestData)
    (start finish : DateTime) :
  AppointmentService.in_startTime data = Some start ->
  AppointmentService.in_endTime data = Some finish ->
  laterThan finish start = false ->
  AppointmentService.createAppointment table rt tenant user role data
    = (Thrown ValidationError, table).
Proof.
  intros Hstart Hfinish Hnot.
  unfold AppointmentService.createAppointment, AppointmentService.validateAppointment.
  rewrite Hstart, Hfinish.
  destruct (AppointmentService.in_title data); [|reflexivity].
  rewrite Hnot, andb_false_r. reflexivity.
Qed.

Lemma create_rejects_end_not_after_start_witness :
  AppointmentService.createAppointment (H := sampleLibraries)
    (tableAfterCreate "t1" "u1") sampleRuntime "t1" "u1" "tenant-user"
    (AppointmentService.mkRequestData (Some "Backwards") None (Some sampleEnd)
       (Some sampleStart) None None None None [])
  = (Thrown ValidationError, tableAfterCreate "t1" "u1").
Proof.
  apply (create_rejects_end_not_after_start (H := sampleLibraries) _ _ _ _ _ _
           sampleEnd sampleStart); reflexivity.
Defined.

(** X27. What create writes for the start time: the record it returns ends
    after it starts, and the item put under the record's key carries, as both
    sort keys, the encoding of the returned start time. *)
Theorem create_encodes_start_time `{Libraries} (table table' : AppointmentService.Table)
    (rt : AppointmentService.Runtime) (tenant user role : string)
    (data : AppointmentService.RequestData) (created : AppointmentService.Appointment) :
  AppointmentService.createAppointment table rt tenant user role data
    = (Returned created, table') ->
  laterThan (AppointmentService.endTime created) (AppointmentService.startTime created)
    = true /\
  validDateTime (AppointmentService.startTime created) = true /\
  exists item,
    table' !! KeyCodec.primaryKey tenant (AppointmentService.appointmentId created)
      = Some item /\
    AppointmentService.GSI1SK item
      = KeyCodec.sortKey (AppointmentService.startTime created) /\
    AppointmentService.GSI2SK item
      = KeyCodec.sortKey (AppointmentService.startTime created).
Proof.
  intros Hcreate.
  destruct (createAppointment_cases table rt tenant user role data)
    as [[_ [e He]]|(value & Hvalid & _ & E)].
  - rewrite Hcreate in He. discriminate He.
  - rewrite Hcreate in E. injection E as -> ->.
    assert (Hchecks : laterThan (AppointmentService.v_endTime value)
                        (AppointmentService.v_startTime value) = true /\
                      validDateTime (AppointmentService.v_startTime value) = true).
    { unfold AppointmentService.validateAppointment in Hvalid.
      destruct (AppointmentService.in_title data),
        (AppointmentService.in_startTime data),
        (AppointmentService.in_endTime data); try discriminate Hvalid.
      destruct (_ && _) eqn:Echecks in Hvalid; [|discriminate Hvalid].
      injection Hvalid as <-. cbn.
      rewrite !andb_true_iff in Echecks. tauto. }
    destruct Hchecks as [Hlater Hstart].
    split; [exact Hlater|]. split; [exact Hstart|].
    eexists. split; [apply lookup_insert_eq|]. split; reflexivity.
Qed.

Lemma create_encodes_start_time_witness :
  laterThan sampleEnd sampleStart = true /\
  exists item,
    tableAfterCreate "t1" "u1" !! KeyCodec.primaryKey "t1" "id-1" = Some item /\
    AppointmentService.GSI1SK item = KeyCodec.sortKey sampleStart.
Proof.
  destruct (create_encodes_start_time (H := sampleLibraries) ∅ (tableAfterCreate "t1" "u1")
              sampleRuntime "t1" "u1" "tenant-user" sampleData
              (AppointmentService.attributes sampleItem))
    as (Hlater & _ & item & Hitem & Hsk & _).
  - reflexivity.
  - split; [exact Hlater|]. exists item. split; [exact Hitem | exact Hsk].
Defined.

(** ** Update and delete *)

(** Who may change a record: the owner and super administrators; everyone
    else gets the access error and the table stays as it was. *)
Lemma mutation_authorization `{Libraries} (table : AppointmentService.Table)
    (now : DateTime) (tenant id user role : string)
    (data : AppointmentService.RequestData) (value : AppointmentService.Patch)
    (item : AppointmentService.Item) :
  table !! KeyCodec.primaryKey tenant id = Some item ->
  AppointmentService.validateUpdate data = Some value ->
  if AppointmentService.denied role user (AppointmentService.attributes item)
  then
    AppointmentService.updateAppointment table now tenant id user role data
      = (Thrown AccessDenied, table) /\
    AppointmentService.deleteAppointment table tenant id user role
      = (Thrown AccessDenied, table)
  else
    AppointmentService.updateAppointment table now tenant id user role data
      = (Returned (Some (AppointmentService.applyPatch value now item)),
         <[KeyCodec.primaryKey tenant id := AppointmentService.applyPatch value now item]>
           table) /\
    AppointmentService.deleteAppointment table tenant id user role
      = (Returned true, delete (KeyCodec.primaryKey tenant id) table).
Proof.
  intros Hitem Hvalid.
  unfold AppointmentService.updateAppointment, AppointmentService.deleteAppointment,
    AppointmentService.getAppointment.
  rewrite Hvalid, Hitem.
  destruct (AppointmentService.denied role user _) eqn:Edenied.
  - split; reflexivity.
  - rewrite Edenied. split; reflexivity.
Qed.

Lemma denied_iff (role user : string) (a : AppointmentService.Appointment) :
  AppointmentService.denied role user a = true <->
  role <> "super-admin" /\ AppointmentService.userId a <> user.
Proof.
  unfold AppointmentService.denied.
  rewrite andb_true_iff, !negb_true_iff, !String.eqb_neq. reflexivity.
Qed.

(** Applying one patch twice changes nothing the first application did not,
    the timestamp apart. *)
Lemma applyPatch_idempotent (value : AppointmentService.Patch) (now1 now2 : DateTime)
    (item : AppointmentService.Item) :
  AppointmentService.applyPatch value now2 (AppointmentService.applyPatch value now1 item)
  = AppointmentService.applyPatch value now2 item.
Proof.
  unfold AppointmentService.applyPatch. cbn.
  destruct value as [t d st et l at' s r]; cbn.
  destruct t, d, st, et, l, at', s, r; reflexivity.
Qed.

(** C7, as stated, fails: an update of an existing record with the empty
    patch does not succeed; it throws the validation error. *)
Lemma empty_patch_not_accepted :
  is_Some (tableAfterCreate "t1" "u1" !! KeyCodec.primaryKey "t1" "id-1") /\
  AppointmentService.updateAppointment (H := sampleLibraries)
    (tableAfterCreate "t1" "u1") sampleLater "t1" "id-1" "u1" "tenant-user" emptyData
  = (Thrown ValidationError, tableAfterCreate "t1" "u1").
Proof. split; [vm_compute; eauto | reflexivity]. Qed.

(** C7, as amended. An update with the empty patch is rejected with the
    validation error each time it is applied, since the update schema asks
    for at least one field, and it leaves the table as it was: start time,
    end time, timestamps and index placement of every record are unchanged. *)
Theorem empty_patch_rejected `{Libraries} (table : AppointmentService.Table)
    (now1 now2 : DateTime) (tenant id user role : string) :
  AppointmentService.updateAppointment table now1 tenant id user role emptyData
    = (Thrown ValidationError, table) /\
  AppointmentService.updateAppointment
    (AppointmentService.updateAppointment table now1 tenant id user role emptyData).2
    now2 tenant id user role emptyData
    = (Thrown ValidationError, table).
Proof. split; reflexivity. Qed.

(** C2, on the code: the update schema has no rule relating the two times
    and [updateAppointment] checks none, so the owner's patch of the end time
    to an hour before the start is stored. *)
Theorem update_stores_end_before_start :
  exists item,
    (AppointmentService.updateAppointment (H := sampleLibraries)
       (tableAfterCreate "t1" "u1") sampleLater "t1" "id-1" "u1" "tenant-user"
       endEarlyData).1 = Returned (Some item) /\
    (AppointmentService.updateAppointment (H := sampleLibraries)
       (tableAfterCreate "t1" "u1") sampleLater "t1" "id-1" "u1" "tenant-user"
       endEarlyData).2 !! KeyCodec.primaryKey "t1" "id-1" = Some item /\
    AppointmentService.startTime (AppointmentService.attributes item) = sampleStart /\
    AppointmentService.endTime (AppointmentService.attributes item)
      = mkDateTime 2024 6 1 9 0 0 0 /\
    laterThan (AppointmentService.endTime (AppointmentService.attributes item))
      (AppointmentService.startTime (AppointmentService.attributes item)) = false /\
    AppointmentService.reachable (H := sampleLibraries)
      (AppointmentService.updateAppointment (H := sampleLibraries)
         (tableAfterCreate "t1" "u1") sampleLater "t1" "id-1" "u1" "tenant-user"
         endEarlyData).2.
Proof.
  eexists. split; [vm_compute; reflexivity|].
  split; [vm_compute; reflexivity|].
  repeat split.
  apply AppointmentService.reach_update, tableAfterCreate_reachable.
Qed.

(** C3, on the code: an update that moves the start time leaves both index
    sort keys as create wrote them, so they encode the old start time, and
    the tenant scan lists the moved appointment (now at 12:00) before the one
    at 11:00. *)
Theorem update_keeps_stale_sort_keys :
  (exists item,
     (AppointmentService.updateAppointment (H := sampleLibraries)
        (tableAfterCreate "t1" "u1") sampleLater "t1" "id-1" "u1" "tenant-user"
        moveData).2 !! KeyCodec.primaryKey "t1" "id-1" = Some item /\
     AppointmentService.startTime (AppointmentService.attributes item)
       = mkDateTime 2024 6 1 12 0 0 0 /\
     AppointmentService.GSI1SK item = KeyCodec.sortKey sampleStart /\
     AppointmentService.GSI2SK item = KeyCodec.sortKey sampleStart /\
     KeyCodec.sortKey sampleStart
       <> KeyCodec.sortKey (AppointmentService.startTime (AppointmentService.attributes item))) /\
  schedule
    (AppointmentService.listAppointments (H := sampleLibraries)
       (AppointmentService.updateAppointment (H := sampleLibraries)
          tableWithTwo sampleLater "t1" "id-1" "u1" "tenant-user" moveData).2
       "t1" "root" "super-admin" Handler.noFilters)
  = [("id-1", mkDateTime 2024 6 1 12 0 0 0); ("id-2", mkDateTime 2024 6 1 11 0 0 0)].
Proof.
  split.
  - eexists. split; [vm_compute; reflexivity|].
    repeat split. discriminate.
  - vm_compute. reflexivity.
Qed.

(** C5, on the code: an administrator of tenant [t1] passes the tenant
    check, yet may neither update nor delete the appointment that user [u1]
    of [t1] owns. *)
Theorem tenant_admin_denied :
  AuthService.hasTenantAccess ["tenant-admin"] (Some "t1") "t1" = true /\
  AuthService.determineUserRole ["tenant-admin"] = "tenant-admin" /\
  is_Some (tableAfterCreate "t1" "u1" !! KeyCodec.primaryKey "t1" "id-1") /\
  AppointmentService.updateAppointment (H := sampleLibraries)
    (tableAfterCreate "t1" "u1") sampleLater "t1" "id-1" "admin-1" "tenant-admin"
    renameData = (Thrown AccessDenied, tableAfterCreate "t1" "u1") /\
  AppointmentService.deleteAppointment (tableAfterCreate "t1" "u1")
    "t1" "id-1" "admin-1" "tenant-admin" = (Thrown AccessDenied, tableAfterCreate "t1" "u1").
Proof.
  split; [reflexivity|]. split; [reflexivity|].
  split; [vm_compute; eauto|]. split; reflexivity.
Qed.

(** * Further properties *)

(** ** AuthService *)

Lemma validateRequest_valid_inv `{Libraries} (nowSeconds : Z)
    (headers : option AuthService.Headers) (tenant : string) :
  AuthService.isValid (AuthService.validateRequest nowSeconds headers tenant) = true ->
  exists h header payload,
    headers = Some h /\
    orElse (AuthService.Authorization h) (AuthService.authorization h) = Some header /\
    header <> "" /\ removeFirst "Bearer " header <> "" /\
    AuthService.verifyToken nowSeconds (removeFirst "Bearer " header) = Some payload /\
    AuthService.hasTenantAccess (default [] (cognito_groups payload))
      (custom_tenant_id payload) tenant = true /\
    AuthService.validateRequest nowSeconds headers tenant =
      AuthService.mkAuthResult true (Some (sub payload)) (Some tenant)
        (Some (AuthService.determineUserRole (default [] (cognito_groups payload)))) None.
Proof.
  unfold AuthService.validateRequest.
  destruct headers as [h|]; [|discriminate].
  destruct (orElse _ _) as [header|] eqn:Eheader; [|discriminate].
  destruct (String.eqb_spec header "") as [|Hheader]; [discriminate|].
  destruct (String.eqb_spec (removeFirst "Bearer " header) "") as [|Htoken];
    [discriminate|].
  destruct (AuthService.verifyToken _ _) as [payload|] eqn:Everify; [|discriminate].
  destruct (AuthService.hasTenantAccess _ _ _) eqn:Eaccess; [|discriminate].
  intros _. exists h, header, payload. repeat split; assumption.
Qed.

Lemma validateRequest_accepts `{Libraries} (nowSeconds : Z)
    (h : AuthService.Headers) (header : string) (payload : TokenPayload)
    (tenant : string) :
  orElse (AuthService.Authorization h) (AuthService.authorization h) = Some header ->
  header <> "" -> removeFirst "Bearer " header <> "" ->
  AuthService.verifyToken nowSeconds (removeFirst "Bearer " header) = Some payload ->
  AuthService.hasTenantAccess (default [] (cognito_groups payload))
    (custom_tenant_id payload) tenant = true ->
  AuthService.validateRequest nowSeconds (Some h) tenant =
    AuthService.mkAuthResult true (Some (sub payload)) (Some tenant)
      (Some (AuthService.determineUserRole (default [] (cognito_groups payload)))) None.
Proof.
  intros Eheader Hheader Htoken Everify Eaccess.
  unfold AuthService.validateRequest.
  rewrite Eheader, (eqb_empty_false _ Hheader), (eqb_empty_false _ Htoken).
  rewrite Everify, Eaccess. reflexivity.
Qed.

(** X1. A request is accepted exactly when its Authorization header (either
    spelling), with the first ['Bearer '] removed, leaves a non-empty token
    that verifies and whose groups pass the tenant check; the identity handed
    to the handler is then the token's subject, the requested tenant and the
    role of the groups, with no error. *)
Theorem validateRequest_accepts_iff `{Libraries} (nowSeconds : Z)
    (headers : option AuthService.Headers) (tenant : string) :
  AuthService.isValid (AuthService.validateRequest nowSeconds headers tenant) = true <->
  exists h header payload,
    headers = Some h /\
    orElse (AuthService.Authorization h) (AuthService.authorization h) = Some header /\
    header <> "" /\ removeFirst "Bearer " header <> "" /\
    AuthService.verifyToken nowSeconds (removeFirst "Bearer " header) = Some payload /\
    AuthService.hasTenantAccess (default [] (cognito_groups payload))
      (custom_tenant_id payload) tenant = true /\
    AuthService.userId (AuthService.validateRequest nowSeconds headers tenant)
      = Some (sub payload) /\
    AuthService.tenantId (AuthService.validateRequest nowSeconds headers tenant)
      = Some tenant /\
    AuthService.role (AuthService.validateRequest nowSeconds headers tenant)
      = Some (AuthService.determineUserRole (default [] (cognito_groups payload))) /\
    AuthService.error (AuthService.validateRequest nowSeconds headers tenant) = None.
Proof.
  split.
  - intros Hvalid.
    destruct (validateRequest_valid_inv _ _ _ Hvalid)
      as (h & header & payload & -> & Eheader & Hheader & Htoken & Hverify & Haccess & E).
    exists h, header, payload. rewrite E. repeat split; assumption.
  - intros (h & header & payload & -> & Eheader & Hheader & Htoken & Hverify & Haccess & _).
    now rewrite (validateRequest_accepts _ h header payload).
Qed.

Lemma determineUserRole_super (userGroups : list string) :
  AuthService.determineUserRole userGroups = "super-admin" <->
  includes userGroups "super-admin" = true.
Proof.
  unfold AuthService.determineUserRole.
  destruct (includes userGroups "super-admin"); [tauto|].
  destruct (includes userGroups "tenant-admin"); [split; discriminate|].
  destruct (includes userGroups "tenant-user"); split; discriminate.
Qed.

(** X2. An accepted identity whose role is not [super-admin] belongs to the
    requested tenant: the token in its header decodes to a payload that
    carries that tenant in [custom:tenant_id], and the user id handed on is
    that payload's subject. So a tenant administrator or user never acts
    under another tenant's scope. *)
Theorem accepted_identity_is_of_requested_tenant `{Libraries} (nowSeconds : Z)
    (headers : option AuthService.Headers) (tenant : string) :
  AuthService.isValid (AuthService.validateRequest nowSeconds headers tenant) = true ->
  AuthService.role (AuthService.validateRequest nowSeconds headers tenant)
    <> Some "super-admin" ->
  exists h header payload,
    headers = Some h /\
    orElse (AuthService.Authorization h) (AuthService.authorization h) = Some header /\
    jwtDecode (removeFirst "Bearer " header) = Some payload /\
    custom_tenant_id payload = Some tenant /\
    AuthService.userId (AuthService.validateRequest nowSeconds headers tenant)
      = Some (sub payload).
Proof.
  intros Hvalid Hrole.
  destruct (validateRequest_valid_inv _ _ _ Hvalid)
    as (h & header & payload & Eh & Eheader & _ & _ & Hverify & Haccess & E).
  rewrite E in Hrole |- *. cbn in Hrole |- *.
  exists h, header, payload.
  split; [exact Eh|]. split; [exact Eheader|]. split; [|split; [|reflexivity]].
  - unfold AuthService.verifyToken in Hverify.
    destruct (jwtDecode _) as [decoded|]; [|discriminate].
    destruct (exp decoded) as [e|]; [|exact Hverify].
    destruct (_ && _); [discriminate | exact Hverify].
  - apply (hasTenantAccess_own_tenant_only (default [] (cognito_groups payload)));
      [|exact Haccess].
    destruct (includes _ "super-admin") eqn:Esuper; [|reflexivity].
    exfalso. apply Hrole. f_equal. now apply determineUserRole_super.
Qed.

Lemma accepted_identity_is_of_requested_tenant_witness :
  exists h header payload,
    Some (AuthService.mkHeaders (Some "Bearer alice") None) = Some h /\
    orElse (AuthService.Authorization h) (AuthService.authorization h) = Some header /\
    jwtDecode (Libraries := sampleLibraries) (removeFirst "Bearer " header) = Some payload /\
    custom_tenant_id payload = Some "t1" /\
    AuthService.userId
      (AuthService.validateRequest (H := sampleLibraries) 1717232400
         (Some (AuthService.mkHeaders (Some "Bearer alice") None)) "t1")
      = Some (sub payload).
Proof.
  apply (accepted_identity_is_of_requested_tenant (H := sampleLibraries));
    [reflexivity | discriminate].
Defined.

(** X3. The verifier lets a decoded token through exactly when it carries no
    expiry, an expiry of 0, or an expiry that is not before the current time:
    a token without [exp] never expires. *)
Theorem verifyToken_accepts_iff `{Libraries} (nowSeconds : Z) (token : string)
    (payload : TokenPayload) :
  AuthService.verifyToken nowSeconds token = Some payload <->
  jwtDecode token = Some payload /\
  match exp payload with
  | Some e => e = 0%Z \/ (nowSeconds <= e)%Z
  | None => True
  end.
Proof.
  unfold AuthService.verifyToken.
  destruct (jwtDecode token) as [decoded|]; [|split; [discriminate | intros [E _]; discriminate E]].
  destruct (exp decoded) as [e|] eqn:Eexp.
  - destruct (Z.eqb_spec e 0) as [->|Hne]; cbn [negb andb].
    + split.
      * intros E. injection E as <-. rewrite Eexp. split; [reflexivity | now left].
      * intros [E _]. exact E.
    + destruct (Z.ltb_spec e nowSeconds) as [Hlt|Hge].
      * split; [discriminate|].
        intros [E Hexp]. injection E as <-. rewrite Eexp in Hexp. lia.
      * split.
        -- intros E. injection E as <-. rewrite Eexp. split; [reflexivity | now right].
        -- intros [E _]. exact E.
  - split.
    + intros E. injection E as <-. now rewrite Eexp.
    + intros [E _]. exact E.
Qed.

Lemma removeFirst_absent (pattern s : string) :
  occursIn pattern s = false -> removeFirst pattern s = s.
Proof.
  induction s as [|c s IH]; cbn [occursIn removeFirst]; intros Hocc;
    apply orb_false_iff in Hocc as [Hprefix Hrest]; rewrite Hprefix.
  - reflexivity.
  - now rewrite IH.
Qed.

(** X4. The ['Bearer '] scheme is optional: a header that is the bare token
    is treated as the same token behind ['Bearer '], provided the token does
    not itself contain ['Bearer ']. *)
Theorem bearer_prefix_is_optional `{Libraries} (nowSeconds : Z) (token : string)
    (lowerCaseHeader : option string) (tenant : string) :
  token <> "" -> occursIn "Bearer " token = false ->
  AuthService.validateRequest nowSeconds
    (Some (AuthService.mkHeaders (Some token) lowerCaseHeader)) tenant
  = AuthService.validateRequest nowSeconds
      (Some (AuthService.mkHeaders (Some ("Bearer " +:+ token)) lowerCaseHeader)) tenant.
Proof.
  intros Htoken Hocc. unfold AuthService.validateRequest.
  cbn [AuthService.Authorization AuthService.authorization].
  unfold orElse, truthy.
  rewrite bearer_nonempty, (eqb_empty_false token Htoken). cbn [negb].
  rewrite bearer_nonempty, (eqb_empty_false token Htoken).
  now rewrite removeFirst_bearer, (removeFirst_absent _ _ Hocc).
Qed.

Lemma bearer_prefix_is_optional_witness :
  AuthService.validateRequest (H := sampleLibraries) 1717232400
    (Some (AuthService.mkHeaders (Some "alice") None)) "t1"
  = AuthService.validateRequest (H := sampleLibraries) 1717232400
      (Some (AuthService.mkHeaders (Some "Bearer alice") None)) "t1".
Proof.
  apply (bearer_prefix_is_optional (H := sampleLibraries)); [discriminate | reflexivity].
Defined.

(** X5. The role of an identity is always one of the three role names;
    it is [super-admin] exactly when the groups include [super-admin], which
    then opens every tenant, and [tenant-admin] exactly when they include
    [tenant-admin] and not [super-admin]. *)
Theorem determineUserRole_precedence (userGroups : list string) :
  In (AuthService.determineUserRole userGroups)
    ["super-admin"; "tenant-admin"; "tenant-user"] /\
  (AuthService.determineUserRole userGroups = "super-admin" <->
   includes userGroups "super-admin" = true) /\
  (AuthService.determineUserRole userGroups = "tenant-admin" <->
   includes userGroups "super-admin" = false /\
   includes userGroups "tenant-admin" = true) /\
  (AuthService.determineUserRole userGroups = "super-admin" ->
   forall userTenantId requestedTenantId,
     AuthService.hasTenantAccess userGroups userTenantId requestedTenantId = true).
Proof.
  split; [|split; [apply determineUserRole_super|split]].
  - unfold AuthService.determineUserRole.
    destruct (includes userGroups "super-admin"); [now left|].
    destruct (includes userGroups "tenant-admin"); [now right; left|].
    destruct (includes userGroups "tenant-user"); now right; right; left.
  - unfold AuthService.determineUserRole.
    destruct (includes userGroups "super-admin"); [split; [discriminate | intros [? _]; discriminate]|].
    destruct (includes userGroups "tenant-admin"); [tauto|].
    destruct (includes userGroups "tenant-user");
      (split; [discriminate | intros [_ ?]; discriminate]).
  - intros Hrole%determineUserRole_super userTenantId requestedTenantId.
    unfold AuthService.hasTenantAccess. now rewrite Hrole.
Qed.

(** X6. The group [createUser] puts a new user in gives the user, at the next
    request, the role of that group's name, lets the user into the tenant it
    was created for, and is [tenant-user] for every role name but the two
    administrator roles. *)
Theorem created_user_role_round_trip (role tenant : string) :
  AuthService.determineUserRole [UserDirectory.getGroupNameForRole role]
    = UserDirectory.getGroupNameForRole role /\
  AuthService.hasTenantAccess [UserDirectory.getGroupNameForRole role] (Some tenant) tenant
    = true /\
  (role <> "super-admin" -> role <> "tenant-admin" ->
   UserDirectory.getGroupNameForRole role = "tenant-user") /\
  (In role ["super-admin"; "tenant-admin"; "tenant-user"] ->
   UserDirectory.getGroupNameForRole role = role).
Proof.
  unfold UserDirectory.getGroupNameForRole.
  destruct (String.eqb_spec role "super-admin") as [->|Hsuper].
  { repeat split; try reflexivity. intros H. now contradiction H. }
  destruct (String.eqb_spec role "tenant-admin") as [->|Hadmin].
  { unfold AuthService.hasTenantAccess. cbn. rewrite String.eqb_refl.
    repeat split; try reflexivity. intros _ H. now contradiction H. }
  unfold AuthService.hasTenantAccess. cbn. rewrite String.eqb_refl.
  repeat split; try reflexivity.
  intros [<-|[<-|[<-|[]]]]; [now contradiction Hsuper | now contradiction Hadmin | reflexivity].
Qed.

Lemma parseAttribute_unread (userInfo : UserDirectory.UserInfo)
    (attr : UserDirectory.AttributeType) :
  UserDirectory.readByGetUserInfo attr = false ->
  UserDirectory.parseAttribute userInfo attr = userInfo.
Proof.
  unfold UserDirectory.readByGetUserInfo, UserDirectory.parseAttribute.
  intros Hunread. apply orb_false_iff in Hunread as [Hunread Hrole].
  apply orb_false_iff in Hunread as [Hemail Htenant].
  now rewrite Hemail, Htenant, Hrole.
Qed.

Lemma fold_parseAttribute_unread (attrs : list UserDirectory.AttributeType)
    (userInfo : UserDirectory.UserInfo) :
  forallb (fun attr => negb (UserDirectory.readByGetUserInfo attr)) attrs = true ->
  fold_left UserDirectory.parseAttribute attrs userInfo = userInfo.
Proof.
  revert userInfo. induction attrs as [|attr attrs IH]; intros userInfo Hall; [reflexivity|].
  cbn [forallb] in Hall. apply andb_true_iff in Hall as [Hattr Hall].
  cbn [fold_left]. rewrite parseAttribute_unread by now apply negb_true_iff.
  now apply IH.
Qed.

Lemma parseAttribute_userId (userInfo : UserDirectory.UserInfo)
    (attr : UserDirectory.AttributeType) :
  UserDirectory.userId (UserDirectory.parseAttribute userInfo attr)
  = UserDirectory.userId userInfo.
Proof.
  unfold UserDirectory.parseAttribute.
  destruct (String.eqb _ "email"); [reflexivity|].
  destruct (String.eqb _ "custom:tenant_id"); [reflexivity|].
  destruct (String.eqb _ "custom:role"); reflexivity.
Qed.

Lemma fold_parseAttribute_userId (attrs : list UserDirectory.AttributeType)
    (userInfo : UserDirectory.UserInfo) :
  UserDirectory.userId (fold_left UserDirectory.parseAttribute attrs userInfo)
  = UserDirectory.userId userInfo.
Proof.
  revert userInfo. induction attrs as [|attr attrs IH]; intros userInfo; [reflexivity|].
  cbn [fold_left]. now rewrite IH, parseAttribute_userId.
Qed.

(** X7. Round trip of the user attributes: when Cognito answers with the
    attributes [createUser] sent, among any others before them and any that
    [getUserInfo] does not read after them (such as [sub]), [getUserInfo]
    reports the e-mail address, tenant and role the user was created with,
    and Cognito's user name as the user id. *)
Theorem getUserInfo_after_createUser (result : UserDirectory.AdminGetUserResponse)
    (userData : UserDirectory.UserData)
    (before after : list UserDirectory.AttributeType) :
  UserDirectory.UserAttributes result
    = Some (before ++ UserDirectory.createUserAttributes userData ++ after) ->
  forallb (fun attr => negb (UserDirectory.readByGetUserInfo attr)) after = true ->
  UserDirectory.email (UserDirectory.getUserInfo result)
    = Some (UserDirectory.new_email userData) /\
  UserDirectory.tenantId (UserDirectory.getUserInfo result)
    = Some (UserDirectory.new_tenantId userData) /\
  UserDirectory.role (UserDirectory.getUserInfo result)
    = Some (UserDirectory.new_role userData) /\
  UserDirectory.userId (UserDirectory.getUserInfo result) = UserDirectory.Username result.
Proof.
  intros Eattrs Hafter. unfold UserDirectory.getUserInfo. rewrite Eattrs.
  change (default [] (Some ?l)) with l.
  rewrite !fold_left_app.
  rewrite (fold_parseAttribute_unread after) by exact Hafter.
  repeat split; try reflexivity.
  rewrite !fold_parseAttribute_userId. reflexivity.
Qed.

Lemma getUserInfo_after_createUser_witness :
  UserDirectory.email
    (UserDirectory.getUserInfo
       (UserDirectory.mkAdminGetUserResponse "jane@acme.com" (Some true)
          (Some "FORCE_CHANGE_PASSWORD") None None
          (Some ([UserDirectory.mkAttribute "custom:role" (Some "stale")]
                 ++ UserDirectory.createUserAttributes sampleUserData
                 ++ [UserDirectory.mkAttribute "sub" (Some "u-1")]))))
  = Some "jane@acme.com" /\
  UserDirectory.role
    (UserDirectory.getUserInfo
       (UserDirectory.mkAdminGetUserResponse "jane@acme.com" (Some true)
          (Some "FORCE_CHANGE_PASSWORD") None None
          (Some ([UserDirectory.mkAttribute "custom:role" (Some "stale")]
                 ++ UserDirectory.createUserAttributes sampleUserData
                 ++ [UserDirectory.mkAttribute "sub" (Some "u-1")]))))
  = Some "tenant-admin".
Proof.
  destruct (getUserInfo_after_createUser
              (UserDirectory.mkAdminGetUserResponse "jane@acme.com" (Some true)
                 (Some "FORCE_CHANGE_PASSWORD") None None
                 (Some ([UserDirectory.mkAttribute "custom:role" (Some "stale")]
                        ++ UserDirectory.createUserAttributes sampleUserData
                        ++ [UserDirectory.mkAttribute "sub" (Some "u-1")])))
              sampleUserData
              [UserDirectory.mkAttribute "custom:role" (Some "stale")]
              [UserDirectory.mkAttribute "sub" (Some "u-1")] eq_refl eq_refl)
    as (Hemail & _ & Hrole & _).
  split; assumption.
Defined.

(** ** AppointmentService: listing *)

Section Listing.
Import AppointmentService.
Context `{Libraries}.

Lemma In_listAppointments (table : Table) (tenant user role : string)
    (filters : AppointmentFilters) (items : list Item) (item : Item) :
  listAppointments table tenant user role filters = Returned items ->
  In item items <->
  (exists key, table !! key = Some item) /\
  (if String.eqb role "super-admin"
   then GSI1PK item = "TENANT#" +:+ tenant
   else GSI2PK item = "TENANT#" +:+ tenant +:+ "#USER#" +:+ user) /\
  passesFilters filters item = true.
Proof.
  unfold listAppointments. intros E.
  destruct (statusNameUnused filters); [discriminate E|].
  injection E as <-.
  rewrite filter_In.
  destruct (String.eqb role "super-admin"); rewrite In_query; tauto.
Qed.



End Listing.

Lemma tableAfterCreate_built (tenant user : string) :
  built (H := sampleLibraries) (tableAfterCreate tenant user).
Proof.
  exact (built_perform ∅
           (Create sampleRuntime tenant user "tenant-user" sampleData) built_empty).
Qed.






(** ** AppointmentService: the table under the writing methods *)

Section Writing.
Import AppointmentService.
Context `{Libraries}.

Lemma validateAppointment_fields (data : RequestData) (value : NewValue)
    (rt : Runtime) (tenant user : string) :
  validateAppointment data = Some value ->
  fieldsAccepted (newAppointment rt tenant user value) = true.
Proof.
  unfold validateAppointment. intros Hvalid.
  destruct (in_title data) as [t|], (in_startTime data) as [st|],
    (in_endTime data) as [et|]; try discriminate Hvalid.
  destruct (_ && _) eqn:Echecks in Hvalid; [|discriminate Hvalid].
  injection Hvalid as <-.
  unfold optionalFieldsAccepted in Echecks.
  rewrite !andb_true_iff in Echecks.
  destruct Echecks as ((((Ht & Hst) & Het) & _) &
                          (((((_ & Hd) & Hl) & Ha) & _) & Hr)).
  unfold fieldsAccepted. cbn.
  rewrite Ht, Hst, Het, Hd, Hl. cbn.
  destruct (in_attendees data) as [l|], (in_reminderMinutes data) as [n|];
    cbn in *; rewrite ?Ha, ?Hr; reflexivity.
Qed.

Lemma validateUpdate_fields (data : RequestData) (value : Patch) (now : DateTime)
    (item : Item) :
  validateUpdate data = Some value ->
  fieldsAccepted (attributes item) = true ->
  fieldsAccepted (attributes (applyPatch value now item)) = true.
Proof.
  unfold validateUpdate. intros Hvalid.
  destruct (_ && _) eqn:Echecks in Hvalid; [|discriminate Hvalid].
  injection Hvalid as <-.
  unfold optionalFieldsAccepted in Echecks.
  rewrite !andb_true_iff in Echecks.
  destruct Echecks as ((((Ht & Hst) & Het) &
                           (((((_ & Hd) & Hl) & Ha) & _) & Hr)) & _).
  unfold fieldsAccepted. rewrite !andb_true_iff.
  intros ((((((Ft & Fd) & Fl) & Fa) & Fr) & Fst) & Fet).
  cbn.
  destruct (in_title data), (in_description data), (in_startTime data),
    (in_endTime data), (in_location data), (in_attendees data),
    (in_reminderMinutes data); cbn in *; repeat split; assumption.
Qed.

Lemma perform_cases (table : Table) (op : Operation) :
  perform table op = table \/
  (exists item,
     table !! targetKey op = None /\
     perform table op = <[targetKey op := item]> table /\
     wellKeyed (targetKey op) item /\ fieldsAccepted (attributes item) = true /\
     match op with
     | Create rt _ _ _ _ => appointmentId (attributes item) = uuid rt
     | _ => False
     end) \/
  (exists existing value now,
     table !! targetKey op = Some existing /\
     perform table op = <[targetKey op := applyPatch value now existing]> table /\
     match op with
     | Update now' _ _ _ _ data => now' = now /\ validateUpdate data = Some value
     | _ => False
     end) \/
  (is_Some (table !! targetKey op) /\ perform table op = delete (targetKey op) table).
Proof.
  destruct op as [rt tenant user role data|now tenant id user role data
                  |tenant id user role]; cbn [perform targetKey].
  - destruct (createAppointment_cases table rt tenant user role data)
      as [[E _]|(value & Hvalid & Hnone & E)]; [now left|].
    right; left. exists (newItem (newAppointment rt tenant user value)).
    rewrite E. repeat split; try assumption.
    now apply (validateAppointment_fields data).
  - destruct (updateAppointment_cases table now tenant id user role data)
      as [E|(value & existing & Hvalid & Hitem & _ & E)]; [now left|].
    right; right; left. exists existing, value, now.
    rewrite E. repeat split; assumption.
  - unfold deleteAppointment, getAppointment.
    destruct (table !! _) as [existing|] eqn:Eitem; [|now left].
    destruct (denied role user (attributes existing)) eqn:Edenied; [now left|].
    rewrite Edenied. right; right; right. split; [eauto | reflexivity].
Qed.

Lemma built_fields (table : Table) :
  built table ->
  map_Forall (fun _ item => fieldsAccepted (attributes item) = true) table.
Proof.
  induction 1 as [|table op _ IH]; [apply map_Forall_empty|].
  destruct (perform_cases table op)
    as [->|[(item & _ & -> & _ & Hfields & _)
           |[(existing & value & now & Hitem & -> & Hop)|[_ ->]]]].
  - exact IH.
  - now apply map_Forall_insert_2.
  - apply map_Forall_insert_2; [|exact IH].
    destruct op as [| now' tenant id user role data |]; try contradiction.
    destruct Hop as [_ Hvalid].
    apply (validateUpdate_fields data); [exact Hvalid | exact (IH _ _ Hitem)].
  - now apply map_Forall_delete.
Qed.

End Writing.


Lemma sampleItem_stored :
  tableAfterCreate "t1" "u1" !! KeyCodec.primaryKey "t1" "id-1" = Some sampleItem.
Proof. vm_compute. reflexivity. Qed.


(** X11. A delete by the owner or a super administrator removes the record:
    it returns [true], the table has one record less, a get for the
    identifier then returns [null] for every caller, and a second delete
    returns [false] and changes nothing. *)
Theorem delete_removes_record `{Libraries} (table : AppointmentService.Table)
    (tenant id user role : string) (item : AppointmentService.Item) :
  table !! KeyCodec.primaryKey tenant id = Some item ->
  AppointmentService.denied role user (AppointmentService.attributes item) = false ->
  exists table',
    AppointmentService.deleteAppointment table tenant id user role = (Returned true, table') /\
    S (size table') = size table /\
    (forall user' role',
       AppointmentService.getAppointment table' tenant id user' role' = Returned None) /\
    AppointmentService.deleteAppointment table' tenant id user role
      = (Returned false, table').
Proof.
  intros Hitem Hallowed.
  exists (delete (KeyCodec.primaryKey tenant id) table).
  unfold AppointmentService.deleteAppointment, AppointmentService.getAppointment.
  rewrite Hitem, Hallowed, lookup_delete_eq. repeat split.
  - now rewrite Hallowed.
  - rewrite map_size_delete_Some by eauto.
    assert (size table <> 0) by (apply map_size_ne_0_lookup; eauto). lia.
Qed.

Lemma delete_removes_record_witness :
  exists table',
    AppointmentService.deleteAppointment (tableAfterCreate "t1" "u1") "t1" "id-1" "u1"
      "tenant-user" = (Returned true, table') /\
    S (size table') = size (tableAfterCreate "t1" "u1") /\
    (forall user' role',
       AppointmentService.getAppointment table' "t1" "id-1" user' role' = Returned None) /\
    AppointmentService.deleteAppointment table' "t1" "id-1" "u1" "tenant-user"
      = (Returned false, table').
Proof.
  eapply (delete_removes_record (H := sampleLibraries)); [vm_compute|]; reflexivity.
Defined.

(** X13. Round trip of an update: a get by the same caller right after a
    successful update returns the item the update returned. *)
Theorem get_after_update `{Libraries} (table table' : AppointmentService.Table)
    (now : DateTime) (tenant id user role : string)
    (data : AppointmentService.RequestData) (updated : AppointmentService.Item) :
  AppointmentService.updateAppointment table now tenant id user role data
    = (Returned (Some updated), table') ->
  AppointmentService.getAppointment table' tenant id user role = Returned (Some updated).
Proof.
  unfold AppointmentService.updateAppointment.
  destruct (AppointmentService.validateUpdate data) as [value|]; [|discriminate].
  unfold AppointmentService.getAppointment at 1.
  destruct (table !! _) as [existing|] eqn:Eitem; [|discriminate].
  destruct (AppointmentService.denied _ _ _) eqn:Edenied; [discriminate|].
  rewrite Edenied. intros Hupdate. injection Hupdate as <- <-.
  unfold AppointmentService.getAppointment. rewrite lookup_insert_eq.
  unfold AppointmentService.denied in *. cbn in *. now rewrite Edenied.
Qed.

Lemma get_after_update_witness :
  AppointmentService.getAppointment
    (<[KeyCodec.primaryKey "t1" "id-1" :=
         AppointmentService.applyPatch
           (AppointmentService.mkPatch (Some "Renamed") None None None None None None None)
           sampleLater sampleItem]> (tableAfterCreate "t1" "u1"))
    "t1" "id-1" "u1" "tenant-user"
  = Returned (Some (AppointmentService.applyPatch
                      (AppointmentService.mkPatch (Some "Renamed") None None None None
                         None None None) sampleLater sampleItem)).
Proof.
  apply (get_after_update (H := sampleLibraries) (tableAfterCreate "t1" "u1") _
           sampleLater "t1" "id-1" "u1" "tenant-user" renameData).
  unfold AppointmentService.updateAppointment, AppointmentService.getAppointment.
  rewrite sampleItem_stored. reflexivity.
Defined.

(** X14. What a successful create does: the key of the tenant and the
    generated identifier was free and now holds an item, every other key
    holds what it held, so the table has one record more; the record
    returned carries the generated identifier, the tenant and user of the
    call (the body cannot set them), the call's time as both [createdAt] and
    [updatedAt], an expiry one year later, and the defaults [scheduled], 60
    minutes and no attendees where the body leaves status, reminder or
    attendees out. *)
Theorem create_adds_one_record `{Libraries} (table table' : AppointmentService.Table)
    (rt : AppointmentService.Runtime) (tenant user role : string)
    (data : AppointmentService.RequestData) (created : AppointmentService.Appointment) :
  AppointmentService.createAppointment table rt tenant user role data
    = (Returned created, table') ->
  table !! KeyCodec.primaryKey tenant (AppointmentService.uuid rt) = None /\
  is_Some (table' !! KeyCodec.primaryKey tenant (AppointmentService.uuid rt)) /\
  (forall key,
     key <> KeyCodec.primaryKey tenant (AppointmentService.uuid rt) ->
     table' !! key = table !! key) /\
  size table' = S (size table) /\
  (AppointmentService.appointmentId created = AppointmentService.uuid rt /\
   AppointmentService.tenantId created = tenant /\
   AppointmentService.userId created = user /\
   AppointmentService.createdAt created = AppointmentService.now rt /\
   AppointmentService.updatedAt created = AppointmentService.now rt /\
   AppointmentService.ttl created
     = (AppointmentService.dateNow rt / 1000 + 31536000)%Z) /\
  (AppointmentService.in_status data = None ->
   AppointmentService.status created = AppointmentService.scheduled) /\
  (AppointmentService.in_reminderMinutes data = None ->
   AppointmentService.reminderMinutes created = 60%Z) /\
  (AppointmentService.in_attendees data = None ->
   AppointmentService.attendees created = []).
Proof.
  intros Hcreate.
  destruct (createAppointment_cases table rt tenant user role data)
    as [[_ [e He]]|(value & Hvalid & Hfree & E)].
  { rewrite Hcreate in He. discriminate He. }
  rewrite Hcreate in E. injection E as -> ->.
  split; [exact Hfree|].
  split; [rewrite lookup_insert_eq; eauto|].
  split; [intros key Hother; now rewrite lookup_insert_ne|].
  split; [now apply map_size_insert_None|].
  split; [repeat split|].
  unfold AppointmentService.validateAppointment in Hvalid.
  destruct (AppointmentService.in_title data),
    (AppointmentService.in_startTime data),
    (AppointmentService.in_endTime data); try discriminate Hvalid.
  destruct (_ && _) in Hvalid; [|discriminate Hvalid].
  injection Hvalid as <-. cbn.
  repeat split; intros ->; reflexivity.
Qed.

Lemma create_adds_one_record_witness :
  size (tableAfterCreate "t1" "u1") = S (size (∅ : AppointmentService.Table)).
Proof.
  apply (create_adds_one_record (H := sampleLibraries) ∅ (tableAfterCreate "t1" "u1")
           sampleRuntime "t1" "u1" "tenant-user" sampleData
           (AppointmentService.attributes sampleItem)).
  reflexivity.
Defined.

(** X15. A create never touches a record that is already stored: whatever
    its outcome, every record of the table is still there, unchanged, under
    its key; when the generated key is taken, the put is refused and the
    table is left as it was. *)
Theorem create_preserves_existing `{Libraries} (table : AppointmentService.Table)
    (rt : AppointmentService.Runtime) (tenant user role : string)
    (data : AppointmentService.RequestData) :
  (forall key item,
     table !! key = Some item ->
     (AppointmentService.createAppointment table rt tenant user role data).2 !! key
       = Some item) /\
  (forall value,
     AppointmentService.validateAppointment data = Some value ->
     is_Some (table !! KeyCodec.primaryKey tenant (AppointmentService.uuid rt)) ->
     AppointmentService.createAppointment table rt tenant user role data
       = (Thrown ConditionalCheckFailed, table)).
Proof.
  split.
  - intros key item Hitem.
    destruct (createAppointment_cases table rt tenant user role data)
      as [[-> _]|(value & _ & Hfree & ->)]; [exact Hitem|].
    cbn [snd]. rewrite lookup_insert_ne; [exact Hitem|].
    intros <-. rewrite Hfree in Hitem. discriminate Hitem.
  - intros value Hvalid [existing Hitem].
    unfold AppointmentService.createAppointment. rewrite Hvalid.
    cbn [AppointmentService.newItem AppointmentService.newAppointment
         AppointmentService.PK AppointmentService.SK AppointmentService.tenantId
         AppointmentService.appointmentId].
    change (?k.1, ?k.2) with k.
    now rewrite Hitem.
Qed.

(** Joi counts UTF-16 code units: a title of 101 accented letters is 202
    bytes of UTF-8 and passes the limit of 200; one of 201 does not. *)
Example title_length_is_in_code_units :
  String.length (accents 101) = 202 /\
  AppointmentService.stringBetween 1 200 (accents 101) = true /\
  AppointmentService.stringBetween 1 200 (accents 201) = false.
Proof. repeat split; vm_compute; reflexivity. Qed.

(** X16. The single-field rules of the schemas hold for every record of
    every table that calls of the service build: a title of 1 to 200 UTF-16
    code units, the length Joi measures, a description of at most 1000 and a
    location of at most 200 where present, attendees that are e-mail
    addresses, and a reminder between 0 and 10080 minutes. Updates keep them,
    since each supplied field is checked by the same rule. *)
Theorem stored_fields_stay_valid `{Libraries} (table : AppointmentService.Table)
    (key : string * string) (item : AppointmentService.Item) :
  built table ->
  table !! key = Some item ->
  let a := AppointmentService.attributes item in
  1 <= utf16Length (AppointmentService.title a) <= 200 /\
  (forall d, AppointmentService.description a = Some d -> utf16Length d <= 1000) /\
  (forall l, AppointmentService.location a = Some l -> utf16Length l <= 200) /\
  (forall attendee, In attendee (AppointmentService.attendees a) ->
     isEmail attendee = true) /\
  (0 <= AppointmentService.reminderMinutes a <= 10080)%Z.
Proof.
  intros Hbuilt Hitem a.
  pose proof (built_fields table Hbuilt _ _ Hitem) as Hfields.
  cbn beta in Hfields. fold a in Hfields.
  unfold fieldsAccepted, AppointmentService.stringBetween,
    AppointmentService.reminderInRange in Hfields.
  rewrite !andb_true_iff in Hfields.
  destruct Hfields as ((((((((_ & Hlo) & Hhi) & Hd) & Hl) & Ha) & (Hr0 & Hr1)) & _) & _).
  apply Nat.leb_le in Hlo, Hhi. apply Z.leb_le in Hr0, Hr1.
  repeat split; try assumption.
  - intros d Ed. rewrite Ed in Hd. cbn in Hd.
    rewrite !andb_true_iff in Hd. destruct Hd as [_ Hd]. now apply Nat.leb_le in Hd.
  - intros l El. rewrite El in Hl. cbn in Hl.
    rewrite !andb_true_iff in Hl. destruct Hl as [_ Hl]. now apply Nat.leb_le in Hl.
  - intros attendee Hin. rewrite forallb_forall in Ha. now apply Ha.
Qed.

Lemma stored_fields_stay_valid_witness :
  1 <= utf16Length (AppointmentService.title (AppointmentService.attributes sampleItem))
    <= 200 /\
  (0 <= AppointmentService.reminderMinutes (AppointmentService.attributes sampleItem)
    <= 10080)%Z.
Proof.
  destruct (stored_fields_stay_valid (H := sampleLibraries) (tableAfterCreate "t1" "u1")
              (KeyCodec.primaryKey "t1" "id-1") sampleItem
              (tableAfterCreate_built "t1" "u1") sampleItem_stored)
    as (Htitle & _ & _ & _ & Hreminder).
  split; assumption.
Defined.

(** One identifier can be stored under two tenants: the put is conditional
    on the key of the tenant and the identifier, not on the identifier. *)
Example same_identifier_in_two_tenants :
  exists created,
    AppointmentService.createAppointment (H := sampleLibraries)
      (tableAfterCreate "t1" "u1") sampleRuntime "t2" "u2" "tenant-user" sampleData
    = (Returned created,
       <[KeyCodec.primaryKey "t2" "id-1" := AppointmentService.newItem created]>
         (tableAfterCreate "t1" "u1")) /\
    AppointmentService.appointmentId created = "id-1" /\
    is_Some (tableAfterCreate "t1" "u1" !! KeyCodec.primaryKey "t1" "id-1").
Proof.
  exists (AppointmentService.newAppointment sampleRuntime "t2" "u2"
            (AppointmentService.mkNewValue "Sync" None sampleStart sampleEnd None None
               AppointmentService.scheduled 60)).
  split; [vm_compute; reflexivity|]. split; [reflexivity|].
  rewrite sampleItem_stored. eauto.
Qed.

(** X17. The key attributes of every record agree with its own attributes,
    in every table that calls of the service build, whatever identifiers
    were generated: the record sits under its [(PK, SK)], which is the
    primary key of its tenant and identifier, its two index partitions are
    those of its tenant and of its tenant and owner, and no other record of
    its tenant carries its identifier. *)
Theorem stored_keys_stay_consistent `{Libraries} (table : AppointmentService.Table)
    (key : string * string) (item : AppointmentService.Item) :
  built table ->
  table !! key = Some item ->
  let a := AppointmentService.attributes item in
  key = (AppointmentService.PK item, AppointmentService.SK item) /\
  key = KeyCodec.primaryKey (AppointmentService.tenantId a)
          (AppointmentService.appointmentId a) /\
  AppointmentService.GSI1PK item
    = (KeyCodec.tenantIndexKey (AppointmentService.tenantId a)
         (AppointmentService.startTime a)).1 /\
  AppointmentService.GSI2PK item
    = (KeyCodec.ownerIndexKey (AppointmentService.tenantId a)
         (AppointmentService.userId a) (AppointmentService.startTime a)).1 /\
  (forall key' item',
     table !! key' = Some item' ->
     AppointmentService.tenantId (AppointmentService.attributes item')
       = AppointmentService.tenantId a ->
     AppointmentService.appointmentId (AppointmentService.attributes item')
       = AppointmentService.appointmentId a ->
     key' = key).
Proof.
  intros Hbuilt Hitem a.
  pose proof (built_wellKeyed table Hbuilt) as Hkeyed.
  destruct (Hkeyed _ _ Hitem) as (Ekey & Epk & Esk & E1 & E2).
  repeat split; try assumption.
  - destruct key as [pk sk]. cbn in Epk, Esk. now rewrite Epk, Esk.
  - intros key' item' Hitem' Etenant Eid.
    destruct (Hkeyed _ _ Hitem') as (Ekey' & _).
    rewrite Ekey', Ekey, Etenant, Eid. reflexivity.
Qed.

Lemma stored_keys_stay_consistent_witness :
  KeyCodec.primaryKey "t1" "id-1"
  = (AppointmentService.PK sampleItem, AppointmentService.SK sampleItem).
Proof.
  apply (stored_keys_stay_consistent (H := sampleLibraries) (tableAfterCreate "t1" "u1")
           (KeyCodec.primaryKey "t1" "id-1") sampleItem
           (tableAfterCreate_built "t1" "u1") sampleItem_stored).
Defined.

Lemma perform_other_key `{Libraries} (table : AppointmentService.Table)
    (op : Operation) (key : string * string) :
  key <> targetKey op ->
  perform table op !! key = table !! key.
Proof.
  intros Hother.
  destruct (perform_cases table op)
    as [->|[(item & _ & -> & _)|[(existing & value & now & _ & -> & _)|[_ ->]]]].
  - reflexivity.
  - now apply lookup_insert_ne.
  - now apply lookup_insert_ne.
  - now apply lookup_delete_ne.
Qed.

(** X18. Every writing call is local: it leaves each record under any
    primary key other than the one it addresses exactly as it was, and it
    adds or removes at most one record. *)
Theorem writes_are_local `{Libraries} (table : AppointmentService.Table)
    (op : Operation) :
  (forall key, key <> targetKey op -> perform table op !! key = table !! key) /\
  size table - 1 <= size (perform table op) <= size table + 1.
Proof.
  split; [intros key; apply perform_other_key|].
  destruct (perform_cases table op)
    as [->|[(item & Hfree & -> & _)|[(existing & value & now & Hitem & -> & _)|[Hitem ->]]]].
  - lia.
  - rewrite map_size_insert_None by exact Hfree. lia.
  - rewrite map_size_insert_Some by eauto. lia.
  - rewrite map_size_delete_Some by exact Hitem. lia.
Qed.

(** X19. No writing call changes what identifies a record: where a key holds
    a record before and after a call, the two have the same identifier,
    tenant, owner, creation time and expiry, and the same six key
    attributes. *)
Theorem identity_attributes_are_immutable `{Libraries}
    (table : AppointmentService.Table) (op : Operation) (key : string * string)
    (before after : AppointmentService.Item) :
  table !! key = Some before ->
  perform table op !! key = Some after ->
  let a := AppointmentService.attributes before in
  let a' := AppointmentService.attributes after in
  AppointmentService.appointmentId a' = AppointmentService.appointmentId a /\
  AppointmentService.tenantId a' = AppointmentService.tenantId a /\
  AppointmentService.userId a' = AppointmentService.userId a /\
  AppointmentService.createdAt a' = AppointmentService.createdAt a /\
  AppointmentService.ttl a' = AppointmentService.ttl a /\
  AppointmentService.PK after = AppointmentService.PK before /\
  AppointmentService.SK after = AppointmentService.SK before /\
  AppointmentService.GSI1PK after = AppointmentService.GSI1PK before /\
  AppointmentService.GSI1SK after = AppointmentService.GSI1SK before /\
  AppointmentService.GSI2PK after = AppointmentService.GSI2PK before /\
  AppointmentService.GSI2SK after = AppointmentService.GSI2SK before.
Proof.
  intros Hbefore Hafter.
  destruct (decide (key = targetKey op)) as [->|Hother].
  - destruct (perform_cases table op)
      as [E|[(item & Hfree & _)|[(existing & value & now & Hitem & E & _)|[_ E]]]].
    + rewrite E, Hbefore in Hafter. injection Hafter as <-. repeat split.
    + rewrite Hfree in Hbefore. discriminate Hbefore.
    + rewrite E, lookup_insert_eq in Hafter. injection Hafter as <-.
      rewrite Hitem in Hbefore. injection Hbefore as <-. repeat split.
    + rewrite E, lookup_delete_eq in Hafter. discriminate Hafter.
  - rewrite (perform_other_key table op key Hother), Hbefore in Hafter.
    injection Hafter as <-. repeat split.
Qed.

Lemma identity_attributes_are_immutable_witness :
  AppointmentService.userId
    (AppointmentService.attributes
       (AppointmentService.applyPatch
          (AppointmentService.mkPatch (Some "Renamed") None None None None None None None)
          sampleLater sampleItem))
  = AppointmentService.userId (AppointmentService.attributes sampleItem).
Proof.
  refine (proj1 (proj2 (proj2
    (identity_attributes_are_immutable (H := sampleLibraries) (tableAfterCreate "t1" "u1")
       (Update sampleLater "t1" "id-1" "u1" "tenant-user" renameData)
       (KeyCodec.primaryKey "t1" "id-1") sampleItem _ sampleItem_stored _)))).
  cbn [perform]. unfold AppointmentService.updateAppointment, AppointmentService.getAppointment.
  rewrite sampleItem_stored. cbn. apply lookup_insert_eq.
Defined.

(** ** The handler *)

Section HandlerFacts.
Import AppointmentService.
Context `{Libraries}.

Lemma truthy_inv (o : option string) :
  truthy o = true -> exists s, o = Some s /\ s <> "".
Proof.
  destruct o as [s|]; [|discriminate]. cbn. intros Hs.
  exists s. split; [reflexivity|]. apply String.eqb_neq. now apply negb_true_iff.
Qed.

Lemma createAppointment_thrown table rt tenant user role data e table' :
  createAppointment table rt tenant user role data = (Thrown e, table') -> table' = table.
Proof.
  intros E.
  destruct (createAppointment_cases table rt tenant user role data)
    as [[E' _]|(value & _ & _ & E')]; rewrite E in E'; [exact E' | discriminate E'].
Qed.

Lemma updateAppointment_unchanged table now tenant id user role data outcome table' :
  updateAppointment table now tenant id user role data = (outcome, table') ->
  (forall item, outcome <> Returned (Some item)) -> table' = table.
Proof.
  intros E Hnot.
  destruct (updateAppointment_cases table now tenant id user role data)
    as [E'|(value & existing & _ & _ & _ & E')]; rewrite E in E'; [exact E'|].
  injection E' as -> _. now contradiction (Hnot (applyPatch value now existing)).
Qed.

Lemma deleteAppointment_unchanged table tenant id user role outcome table' :
  deleteAppointment table tenant id user role = (outcome, table') ->
  outcome <> Returned true -> table' = table.
Proof.
  unfold deleteAppointment, getAppointment.
  destruct (table !! _) as [existing|]; [|now intros [= <- <-]].
  destruct (denied role user (attributes existing)) eqn:Edenied; [now intros [= <- <-]|].
  rewrite Edenied. intros [= <- <-] Hnot. now contradiction Hnot.
Qed.

End HandlerFacts.

(** X20. The handler answers below 400 only to a caller whose token
    verified and whose groups pass the tenant check for the tenant of the
    path: no appointment is read or written for anyone else. *)
Theorem success_requires_tenant_access `{Libraries} (table : AppointmentService.Table)
    (rt : AppointmentService.Runtime) (event : Handler.Event) :
  Handler.statusCode (Handler.handler table rt event).1 < 400 ->
  exists tenant h header payload,
    Handler.pathTenantId event = Some tenant /\ tenant <> "" /\
    Handler.headers event = Some h /\
    orElse (AuthService.Authorization h) (AuthService.authorization h) = Some header /\
    AuthService.verifyToken (AppointmentService.dateNow rt / 1000)%Z
      (removeFirst "Bearer " header) = Some payload /\
    AuthService.hasTenantAccess (default [] (cognito_groups payload))
      (custom_tenant_id payload) tenant = true.
Proof.
  unfold Handler.handler.
  destruct (truthy (Handler.pathTenantId event)) eqn:Etenant; cbn [negb];
    [|cbn; lia].
  apply truthy_inv in Etenant as (tenant & Etenant & Hne). rewrite Etenant.
  cbn [default].
  destruct (AuthService.isValid _) eqn:Evalid; cbn [negb]; [|cbn; lia].
  intros _.
  destruct (validateRequest_valid_inv _ _ _ Evalid)
    as (h & header & payload & Eh & Eheader & _ & _ & Hverify & Haccess & _).
  exists tenant, h, header, payload. repeat split; assumption.
Qed.

Lemma success_requires_tenant_access_witness :
  exists tenant h header payload,
    Some "t1" = Some tenant /\ tenant <> "" /\
    Some (AuthService.mkHeaders (Some "Bearer alice") None) = Some h /\
    orElse (AuthService.Authorization h) (AuthService.authorization h) = Some header /\
    AuthService.verifyToken (H := sampleLibraries) (1717059600000 / 1000)%Z
      (removeFirst "Bearer " header) = Some payload /\
    AuthService.hasTenantAccess (default [] (cognito_groups payload))
      (custom_tenant_id payload) tenant = true.
Proof.
  apply (success_requires_tenant_access (H := sampleLibraries) (tableAfterCreate "t1" "u-alice")
           sampleRuntime
           (Handler.mkEvent "GET" (Some "t1") None
              (Some (AuthService.mkHeaders (Some "Bearer alice") None)) None None)).
  vm_compute. lia.
Defined.

(** X21. Error atomicity of the handler: a response of 400 or above leaves
    the table exactly as it was, whatever the method, body and caller. *)
Theorem error_response_leaves_table `{Libraries} (table : AppointmentService.Table)
    (rt : AppointmentService.Runtime) (event : Handler.Event) :
  400 <= Handler.statusCode (Handler.handler table rt event).1 ->
  (Handler.handler table rt event).2 = table.
Proof.
  unfold Handler.handler.
  destruct (negb (truthy (Handler.pathTenantId event))); [reflexivity|].
  destruct (negb (AuthService.isValid _)); [reflexivity|].
  destruct (String.eqb (Handler.httpMethod event) "GET").
  { destruct (truthy (Handler.pathAppointmentId event)); reflexivity. }
  destruct (String.eqb (Handler.httpMethod event) "POST").
  { unfold Handler.createAppointment.
    destruct (Handler.body event) as [[|data]|]; try reflexivity.
    destruct (AppointmentService.createAppointment _ _ _ _ _ _) as [[created|e] table']
      eqn:Ecreate; cbn; [lia|].
    intros _. now apply createAppointment_thrown in Ecreate. }
  destruct (String.eqb (Handler.httpMethod event) "PUT").
  { destruct (negb (truthy (Handler.pathAppointmentId event))); [reflexivity|].
    unfold Handler.updateAppointment.
    destruct (Handler.body event) as [[|data]|]; try reflexivity.
    destruct (AppointmentService.updateAppointment _ _ _ _ _ _ _) as [[[item|]|e] table']
      eqn:Eupdate; cbn; [lia| |];
      intros _; apply updateAppointment_unchanged in Eupdate; auto; discriminate. }
  destruct (String.eqb (Handler.httpMethod event) "DELETE"); [|reflexivity].
  destruct (negb (truthy (Handler.pathAppointmentId event))); [reflexivity|].
  unfold Handler.deleteAppointment.
  destruct (AppointmentService.deleteAppointment _ _ _ _ _) as [[[|]|e] table']
    eqn:Edelete; cbn; [lia| |];
    intros _; apply deleteAppointment_unchanged in Edelete; auto; discriminate.
Qed.

Lemma error_response_leaves_table_witness :
  (Handler.handler (H := sampleLibraries) (tableAfterCreate "t1" "u-alice") secondRuntime
     (Handler.mkEvent "POST" (Some "t1") None
        (Some (AuthService.mkHeaders (Some "Bearer alice") None)) None
        (Some (Handler.Json emptyData)))).2
  = tableAfterCreate "t1" "u-alice".
Proof.
  apply (error_response_leaves_table (H := sampleLibraries)). vm_compute. lia.
Defined.

(** X22. The handler answers with one of seven status codes and never with
    403 or 422: 201 only to a POST, 405 only to a method other than GET,
    POST, PUT and DELETE, and 404 never to a POST. *)
Theorem handler_status_codes `{Libraries} (table : AppointmentService.Table)
    (rt : AppointmentService.Runtime) (event : Handler.Event) :
  let status := Handler.statusCode (Handler.handler table rt event).1 in
  In status [200; 201; 400; 401; 404; 405; 500] /\
  (status = 201 -> Handler.httpMethod event = "POST") /\
  (status = 405 ->
   ~ In (Handler.httpMethod event) ["GET"; "POST"; "PUT"; "DELETE"]) /\
  (status = 404 -> Handler.httpMethod event <> "POST").
Proof.
  unfold Handler.handler.
  destruct (negb (truthy (Handler.pathTenantId event))); [cbn; intuition discriminate|].
  destruct (negb (AuthService.isValid _)); [cbn; intuition discriminate|].
  destruct (String.eqb_spec (Handler.httpMethod event) "GET") as [Eget|Hget].
  { rewrite Eget.
    destruct (truthy (Handler.pathAppointmentId event)); cbn [fst].
    - unfold Handler.getAppointment.
      destruct (AppointmentService.getAppointment _ _ _ _ _) as [[item|]|e]; cbn;
        intuition discriminate.
    - unfold Handler.listAppointments.
      destruct (AppointmentService.listAppointments _ _ _ _ _) as [items|e]; cbn;
        intuition discriminate. }
  destruct (String.eqb_spec (Handler.httpMethod event) "POST") as [Epost|Hpost].
  { rewrite Epost. unfold Handler.createAppointment.
    destruct (Handler.body event) as [[|data]|]; try (cbn; intuition discriminate).
    destruct (AppointmentService.createAppointment _ _ _ _ _ _) as [[created|e] table'];
      cbn; intuition discriminate. }
  destruct (String.eqb_spec (Handler.httpMethod event) "PUT") as [Eput|Hput].
  { rewrite Eput.
    destruct (negb (truthy (Handler.pathAppointmentId event)));
      [cbn; intuition discriminate|].
    unfold Handler.updateAppointment.
    destruct (Handler.body event) as [[|data]|]; try (cbn; intuition discriminate).
    destruct (AppointmentService.updateAppointment _ _ _ _ _ _ _) as [[[item|]|e] table'];
      cbn; intuition discriminate. }
  destruct (String.eqb_spec (Handler.httpMethod event) "DELETE") as [Edelete|Hdelete].
  { rewrite Edelete.
    destruct (negb (truthy (Handler.pathAppointmentId event)));
      [cbn; intuition discriminate|].
    unfold Handler.deleteAppointment.
    destruct (AppointmentService.deleteAppointment _ _ _ _ _) as [[[|]|e] table'];
      cbn; intuition discriminate. }
  cbn. repeat split; intuition (discriminate || congruence).
Qed.

(** X23. Errors the service throws are all answered 500: an authenticated
    get of an appointment the caller is denied, and an authenticated create
    whose body the schema rejects, are neither 403 nor 400. *)
Theorem service_errors_are_answered_500 `{Libraries} (table : AppointmentService.Table)
    (rt : AppointmentService.Runtime) (event : Handler.Event)
    (tenant user role : string) :
  Handler.pathTenantId event = Some tenant -> tenant <> "" ->
  AuthService.validateRequest (AppointmentService.dateNow rt / 1000)%Z
    (Handler.headers event) tenant
    = AuthService.mkAuthResult true (Some user) (Some tenant) (Some role) None ->
  (forall id item,
     Handler.httpMethod event = "GET" ->
     Handler.pathAppointmentId event = Some id -> id <> "" ->
     table !! KeyCodec.primaryKey tenant id = Some item ->
     AppointmentService.denied role user (AppointmentService.attributes item) = true ->
     Handler.handler table rt event
       = (Handler.error 500 "Failed to retrieve appointment" None, table)) /\
  (forall data,
     Handler.httpMethod event = "POST" ->
     Handler.body event = Some (Handler.Json data) ->
     AppointmentService.validateAppointment data = None ->
     Handler.handler table rt event
       = (Handler.error 500 "Failed to create appointment" None, table)).
Proof.
  intros Etenant Hne Eauth. split.
  - intros id item Emethod Eid Hid Hitem Hdenied.
    unfold Handler.handler.
    rewrite Etenant, Emethod, Eid. cbn [truthy]. change (default "" (Some ?x)) with x.
    rewrite (eqb_empty_false tenant Hne), (eqb_empty_false id Hid). cbn [negb].
    rewrite Eauth. cbn.
    unfold Handler.getAppointment, AppointmentService.getAppointment.
    now rewrite Hitem, Hdenied.
  - intros data Emethod Ebody Hinvalid.
    unfold Handler.handler.
    rewrite Etenant, Emethod, Ebody. cbn [truthy]. change (default "" (Some ?x)) with x.
    rewrite (eqb_empty_false tenant Hne). cbn [negb].
    rewrite Eauth. cbn.
    unfold AppointmentService.createAppointment. now rewrite Hinvalid.
Qed.

Lemma service_errors_are_answered_500_witness :
  Handler.handler (H := sampleLibraries) (tableAfterCreate "t1" "u1") secondRuntime
    (Handler.mkEvent "GET" (Some "t1") (Some "id-1")
       (Some (AuthService.mkHeaders (Some "Bearer alice") None)) None None)
  = (Handler.error 500 "Failed to retrieve appointment" None, tableAfterCreate "t1" "u1").
Proof.
  destruct (service_errors_are_answered_500 (H := sampleLibraries)
              (tableAfterCreate "t1" "u1") secondRuntime
              (Handler.mkEvent "GET" (Some "t1") (Some "id-1")
                 (Some (AuthService.mkHeaders (Some "Bearer alice") None)) None None)
              "t1" "u-alice" "tenant-user" eq_refl ltac:(discriminate) eq_refl)
    as [Hget _].
  apply (Hget "id-1" sampleItem); try reflexivity; discriminate.
Defined.

(** ** The seed script *)

(** X24. The seed script writes records the service can serve. In whatever
    zone the script runs, an item it builds sits under the primary key the
    service derives for its tenant and identifier and carries the two index
    partitions the service derives, and once put, a get by its owner under
    its tenant and identifier returns it. Its two sort keys are those the
    service derives for the start time when the year has four digits and the
    zone of the script shows that instant as UTC does: the date in the key is
    the UTC date, the time of day is local. *)
Theorem seeded_item_is_served `{Libraries} (zone : SeedData.TimeZone)
    (table : AppointmentService.Table)
    (dateNow : Z) (appointment : SeedData.SeedAppointment) (role : string) :
  let item := SeedData.createAppointmentItem zone dateNow appointment in
  let tenant := SeedData.seed_tenantId appointment in
  let owner := SeedData.seed_userId appointment in
  let start := SeedData.seed_startTime appointment in
  (AppointmentService.PK item, AppointmentService.SK item)
    = KeyCodec.primaryKey tenant (SeedData.seed_appointmentId appointment) /\
  AppointmentService.GSI1PK item = (KeyCodec.tenantIndexKey tenant start).1 /\
  AppointmentService.GSI2PK item = (KeyCodec.ownerIndexKey tenant owner start).1 /\
  (fourDigitYear start = true -> zone start = start ->
   AppointmentService.GSI1SK item = (KeyCodec.tenantIndexKey tenant start).2 /\
   AppointmentService.GSI2SK item = (KeyCodec.ownerIndexKey tenant owner start).2) /\
  AppointmentService.getAppointment
    (SeedData.seedAppointment zone table dateNow appointment)
    tenant (SeedData.seed_appointmentId appointment) owner role
  = Returned (Some item).
Proof.
  intros item tenant owner start.
  split; [reflexivity|]. split; [reflexivity|]. split; [reflexivity|]. split.
  - unfold fourDigitYear. intros Hyear Hzone.
    unfold item, SeedData.createAppointmentItem, SeedData.isoDate, SeedData.clockTime.
    fold start. rewrite Hyear, Hzone. split; reflexivity.
  - unfold SeedData.seedAppointment, AppointmentService.getAppointment. fold item.
    change (AppointmentService.PK item, AppointmentService.SK item)
      with (KeyCodec.primaryKey (SeedData.seed_tenantId appointment)
              (SeedData.seed_appointmentId appointment)).
    rewrite lookup_insert_eq.
    unfold AppointmentService.denied. cbn.
    now rewrite String.eqb_refl, andb_false_r.
Qed.

(** In a zone an hour ahead of UTC the seeded sort key shows 11:00 for the
    start at 10:00 UTC, where the service writes 10:00. *)
Example seeded_sort_key_is_local :
  AppointmentService.GSI1SK (SeedData.createAppointmentItem hourAhead 0 sampleSeed)
    = "DATE#2024-06-01#TIME#11:00:00" /\
  KeyCodec.sortKey (SeedData.seed_startTime sampleSeed) = "DATE#2024-06-01#TIME#10:00:00".
Proof. split; vm_compute; reflexivity. Qed.

(** ** Filters *)

Lemma statusName_parse (s : AppointmentService.Status) (name : string) :
  AppointmentService.statusName s = name -> AppointmentService.parseStatus name = Some s.
Proof. intros <-. destruct s; reflexivity. Qed.

(** X25. The status filter is an exact match on the stored status: with a
    non-empty status filter a list returns only records in that status, and
    for a filter value that is none of the four status names it returns
    nothing, without an error. *)
Theorem status_filter_is_exact_match `{Libraries} (table : AppointmentService.Table)
    (tenant user role wanted : string)
    (filters : AppointmentService.AppointmentFilters)
    (items : list AppointmentService.Item) :
  AppointmentService.statusFilter filters = Some wanted -> wanted <> "" ->
  AppointmentService.listAppointments table tenant user role filters = Returned items ->
  (forall item, In item items ->
     AppointmentService.statusName
       (AppointmentService.status (AppointmentService.attributes item)) = wanted) /\
  (AppointmentService.parseStatus wanted = None -> items = []).
Proof.
  intros Efilter Hwanted Hlist.
  assert (Hmatch : forall item, In item items ->
            AppointmentService.statusName
              (AppointmentService.status (AppointmentService.attributes item)) = wanted).
  { intros item Hin.
    apply (In_listAppointments table tenant user role filters items item Hlist) in Hin
      as (_ & _ & Hpass).
    unfold AppointmentService.passesFilters in Hpass.
    rewrite Efilter in Hpass. cbn [truthy default] in Hpass.
    rewrite (eqb_empty_false wanted Hwanted) in Hpass. cbn [negb] in Hpass.
    rewrite !andb_true_iff in Hpass. destruct Hpass as [_ Hstatus].
    now apply String.eqb_eq in Hstatus. }
  split; [exact Hmatch|].
  intros Hunknown. destruct items as [|item items]; [reflexivity|].
  exfalso. pose proof (Hmatch item (or_introl eq_refl)) as Hname.
  apply statusName_parse in Hname. congruence.
Qed.

Lemma status_filter_is_exact_match_witness :
  AppointmentService.listAppointments (H := sampleLibraries) (tableAfterCreate "t1" "u1")
    "t1" "u1" "tenant-user"
    (AppointmentService.mkFilters None None (Some "pending") None)
  = Returned [].
Proof.
  destruct (status_filter_is_exact_match (H := sampleLibraries)
              (tableAfterCreate "t1" "u1") "t1" "u1" "tenant-user" "pending"
              (AppointmentService.mkFilters None None (Some "pending") None)
              _ eq_refl ltac:(discriminate) eq_refl) as [_ Hempty].
  exact (f_equal Returned (Hempty eq_refl)).
Defined.

(** ** Repeating an update *)

(** X26. Updates are idempotent up to the timestamp: after a successful
    update, applying the same patch again succeeds and leaves the table and
    the returned item exactly as a single application at the later time
    would. *)
Theorem repeated_update_is_single_update `{Libraries}
    (table table1 : AppointmentService.Table) (now1 now2 : DateTime)
    (tenant id user role : string) (data : AppointmentService.RequestData)
    (updated : AppointmentService.Item) :
  AppointmentService.updateAppointment table now1 tenant id user role data
    = (Returned (Some updated), table1) ->
  AppointmentService.updateAppointment table1 now2 tenant id user role data
  = AppointmentService.updateAppointment table now2 tenant id user role data /\
  exists again table2,
    AppointmentService.updateAppointment table1 now2 tenant id user role data
      = (Returned (Some again), table2).
Proof.
  unfold AppointmentService.updateAppointment.
  destruct (AppointmentService.validateUpdate data) as [value|]; [|discriminate].
  unfold AppointmentService.getAppointment.
  destruct (table !! _) as [existing|] eqn:Eitem; [|discriminate].
  destruct (AppointmentService.denied role user (AppointmentService.attributes existing))
    eqn:Edenied; [discriminate|].
  rewrite Edenied. intros Hupdate. injection Hupdate as <- <-.
  rewrite lookup_insert_eq.
  assert (Esame : AppointmentService.denied role user
            (AppointmentService.attributes
               (AppointmentService.applyPatch value now1 existing)) = false)
    by exact Edenied.
  rewrite Esame, applyPatch_idempotent, insert_insert_eq.
  change (AppointmentService.denied role user
            (AppointmentService.attributes
               (AppointmentService.applyPatch value now1 existing)))
    with (AppointmentService.denied role user (AppointmentService.attributes existing)).
  rewrite Edenied.
  split; [reflexivity | eauto].
Qed.

Lemma repeated_update_is_single_update_witness :
  AppointmentService.updateAppointment (H := sampleLibraries)
    (<[KeyCodec.primaryKey "t1" "id-1" :=
         AppointmentService.applyPatch
           (AppointmentService.mkPatch (Some "Renamed") None None None None None None None)
           sampleLater sampleItem]> (tableAfterCreate "t1" "u1"))
    sampleEnd "t1" "id-1" "u1" "tenant-user" renameData
  = AppointmentService.updateAppointment (H := sampleLibraries)
      (tableAfterCreate "t1" "u1") sampleEnd "t1" "id-1" "u1" "tenant-user" renameData.
Proof.
  apply (repeated_update_is_single_update (H := sampleLibraries)
           (tableAfterCreate "t1" "u1") _ sampleLater sampleEnd "t1" "id-1" "u1"
           "tenant-user" renameData
           (AppointmentService.applyPatch
              (AppointmentService.mkPatch (Some "Renamed") None None None None None None
                 None) sampleLater sampleItem)).
  unfold AppointmentService.updateAppointment, AppointmentService.getAppointment.
  rewrite sampleItem_stored. reflexivity.
Defined.

